(** * discord-bridge: the Gateway session and the event router

    A shallow embedding of [discord_bridge/config.py], [router.py] and
    [gateway.py], and the properties of the specification checked on it.

    Python values that come off the wire are kept as JSON values ([pyval]);
    coroutines are functions that return their result together with the
    effects they performed (frames sent, sleeps, POST requests), in order.
    Calls to [logger] are left out: they neither change state nor control
    flow. *)

From Stdlib Require Import ZArith String Ascii Bool Lia.
From stdpp Require Import base list strings.

Local Open Scope string_scope.
Local Open Scope Z_scope.
Local Open Scope list_scope.

Set Warnings "-register-all".

(** ** Python values *)

Module Py.

(** What [json.loads] produces. Numbers are integers here; the floats of
    JSON are not modelled. [PNone] is both JSON [null] and Python [None]. *)
Inductive pyval : Type :=
  | PNone
  | PBool (b : bool)
  | PInt (z : Z)
  | PStr (s : string)
  | PList (items : list pyval)
  | PDict (items : list (string * pyval)).

(** Raised exceptions, as far as the [except] clauses of the program tell
    them apart. In [websockets], [ConnectionClosed] is a subclass of
    [WebSocketException]; everything else is an [Exception]. *)
Inductive exn : Type :=
  | ConnectionClosed
  | WebSocketException
  | Exception (what : string).

Inductive res (A : Type) : Type :=
  | Ret (a : A)
  | Raise (e : exn).
Arguments Ret {A} a.
Arguments Raise {A} e.

(** [bool(v)]: the truth value Python gives to [v] in [if v] and [v and w]. *)
Definition truthy (v : pyval) : bool :=
  match v with
  | PNone => false
  | PBool b => b
  | PInt z => negb (z =? 0)
  | PStr s => negb (String.eqb s "")
  | PList items => match items with [] => false | _ => true end
  | PDict items => match items with [] => false | _ => true end
  end.

Definition is_none (v : pyval) : bool :=
  match v with PNone => true | _ => false end.

(** [v == n] for an integer literal [n]; [False == 0] and [True == 1] hold
    in Python. *)
Definition eq_int (v : pyval) (n : Z) : bool :=
  match v with
  | PInt z => z =? n
  | PBool b => (if b then 1 else 0) =? n
  | _ => false
  end.

(** [v == s] for a string literal [s]. *)
Definition eq_str (v : pyval) (s : string) : bool :=
  match v with
  | PStr x => String.eqb x s
  | _ => false
  end.

(** Lookup in a dict, held as the list of its items. *)
Fixpoint lookup (k : string) (items : list (string * pyval)) : option pyval :=
  match items with
  | [] => None
  | (k', v) :: rest => if String.eqb k' k then Some v else lookup k rest
  end.

(** [v.get(k, default)]: only a dict has [get]; on any other value the
    attribute access raises [AttributeError]. *)
Definition get (v : pyval) (k : string) (default : pyval) : res pyval :=
  match v with
  | PDict items =>
      match lookup k items with
      | Some x => Ret x
      | None => Ret default
      end
  | _ => Raise (Exception "AttributeError")
  end.

(** [v[k]] for a string key: [KeyError] on a dict without the key,
    [TypeError] on a value that is not a dict. *)
Definition subscript (v : pyval) (k : string) : res pyval :=
  match v with
  | PDict items =>
      match lookup k items with
      | Some x => Ret x
      | None => Raise (Exception "KeyError")
      end
  | _ => Raise (Exception "TypeError")
  end.

End Py.
Import Py.

(** ** config.py *)

Module Config.

Record EventRoute : Type := {
  event_name : string;
  endpoints : list string;
  enabled : bool
}.

Record DiscordConfig : Type := {
  token : string;
  intents : Z
}.

Record HTTPConfig : Type := {
  timeout : Z;
  retry_attempts : Z;
  retry_delay : Z
}.

Record BridgeConfig : Type := {
  discord : DiscordConfig;
  http : HTTPConfig;
  routes : list EventRoute
}.

(** [[route for route in routes if route.event_name == event_name and route.enabled]] *)
Fixpoint routes_comprehension (rs : list EventRoute) (name : string) : list EventRoute :=
  match rs with
  | [] => []
  | route :: rest =>
      if String.eqb (event_name route) name && enabled route
      then route :: routes_comprehension rest name
      else routes_comprehension rest name
  end.

Definition get_routes_for_event (self : BridgeConfig) (name : string) : list EventRoute :=
  routes_comprehension (routes self) name.

Record LoggingConfig : Type := {
  level : string;
  format : string
}.

(** The defaults of [HTTPConfig()] and [LoggingConfig()]. *)
Definition HTTPConfig_default : HTTPConfig :=
  {| timeout := 30; retry_attempts := 3; retry_delay := 1 |}.

Definition LoggingConfig_default : LoggingConfig :=
  {| level := "INFO"; format := "json" |}.

(** [validate_token]: [if not v or len(v) < 10: raise ValueError]. *)
Definition validate_token (v : string) : res string :=
  if String.eqb v "" || (Z.of_nat (String.length v) <? 10)
  then Raise (Exception "ValueError: Discord token must be provided and valid")
  else Ret v.

(** [DiscordConfig(token=..., intents=...)]: the field validator runs on
    the token. *)
Definition DiscordConfig_init (token_arg : string) (intents_arg : Z)
    : res DiscordConfig :=
  match validate_token token_arg with
  | Ret v => Ret {| token := v; intents := intents_arg |}
  | Raise e => Raise e
  end.

Section Environment.

(** [os.getenv(name)], and the builtin [int] applied to a string (it
    raises [ValueError] on what it does not read as an integer). *)
Variable environ : string → option string.
Variable int : string → res Z.

(** [os.getenv(name, default)] *)
Definition getenv (name default : string) : string :=
  match environ name with
  | Some v => v
  | None => default
  end.

(** [BridgeConfig.from_env]. The arguments of each constructor are
    evaluated before the constructor runs, from left to right; [routes]
    is not given and takes its default, the empty list. *)
Definition from_env : res (BridgeConfig * LoggingConfig) :=
  match environ "DISCORD_TOKEN" with
  | None =>
      Raise (Exception "ValueError: DISCORD_TOKEN environment variable is required")
  | Some discord_token =>
      if String.eqb discord_token "" then
        Raise (Exception "ValueError: DISCORD_TOKEN environment variable is required")
      else
        match int (getenv "DISCORD_INTENTS" "513") with
        | Raise e => Raise e
        | Ret intents_arg =>
            match DiscordConfig_init discord_token intents_arg with
            | Raise e => Raise e
            | Ret discord_cfg =>
                match int (getenv "HTTP_TIMEOUT" "30") with
                | Raise e => Raise e
                | Ret timeout_arg =>
                    match int (getenv "HTTP_RETRY_ATTEMPTS" "3") with
                    | Raise e => Raise e
                    | Ret attempts_arg =>
                        match int (getenv "HTTP_RETRY_DELAY" "1") with
                        | Raise e => Raise e
                        | Ret delay_arg =>
                            Ret ({| discord := discord_cfg;
                                    http := {| timeout := timeout_arg;
                                               retry_attempts := attempts_arg;
                                               retry_delay := delay_arg |};
                                    routes := [] |},
                                 {| level := getenv "LOG_LEVEL" "INFO";
                                    format := getenv "LOG_FORMAT" "json" |})
                        end
                    end
                end
            end
        end
  end.

End Environment.

End Config.
Import Config.

(** ** The clock: [datetime.now(timezone.utc).isoformat()] *)

Module Clock.

(** An aware [datetime] whose [tzinfo] is [timezone.utc]. *)
Record datetime : Type := {
  year : Z;
  month : Z;
  day : Z;
  hour : Z;
  minute : Z;
  second : Z;
  microsecond : Z
}.

Definition is_leap (y : Z) : bool :=
  ((y mod 4 =? 0) && negb (y mod 100 =? 0)) || (y mod 400 =? 0).

Definition days_in_month (y m : Z) : Z :=
  if m =? 2 then (if is_leap y then 29 else 28)
  else if (m =? 4) || (m =? 6) || (m =? 9) || (m =? 11) then 30
  else 31.

(** The values a [datetime] object can hold ([MINYEAR] is 1, [MAXYEAR] 9999). *)
Definition valid_datetime (t : datetime) : bool :=
  (1 <=? year t) && (year t <=? 9999)
  && (1 <=? month t) && (month t <=? 12)
  && (1 <=? day t) && (day t <=? days_in_month (year t) (month t))
  && (0 <=? hour t) && (hour t <? 24)
  && (0 <=? minute t) && (minute t <? 60)
  && (0 <=? second t) && (second t <? 60)
  && (0 <=? microsecond t) && (microsecond t <? 1000000).

Definition digit (d : Z) : ascii := ascii_of_N (Z.to_N (48 + d)).

(** ["%0<width>d" % n], for [0 <= n < 10 ^ width]. *)
Fixpoint zero_padded (width : nat) (n : Z) : string :=
  match width with
  | O => EmptyString
  | S w => String (digit (n / 10 ^ Z.of_nat w)) (zero_padded w (n mod 10 ^ Z.of_nat w))
  end.

(** [datetime.isoformat()] of the standard library with the default
    separator and [timespec='auto']: the fraction is printed only when
    [microsecond] is not zero, and the offset of [timezone.utc] is
    [+00:00]. *)
Definition isoformat (t : datetime) : string :=
  zero_padded 4 (year t) +:+ "-" +:+ zero_padded 2 (month t) +:+ "-" +:+
  zero_padded 2 (day t) +:+ "T" +:+ zero_padded 2 (hour t) +:+ ":" +:+
  zero_padded 2 (minute t) +:+ ":" +:+ zero_padded 2 (second t) +:+
  (if microsecond t =? 0 then "" else "." +:+ zero_padded 6 (microsecond t)) +:+
  "+00:00".

(** *** Reading an ISO-8601 UTC instant

    The recogniser for what the specification calls a valid ISO-8601 UTC
    instant: the extended format [YYYY-MM-DDThh:mm:ss], an optional
    fraction of six digits, and the UTC designator [Z] or [+00:00]; the
    fields must denote an existing date and time of day. *)

Definition digit_value (c : ascii) : option Z :=
  let n := Z.of_N (N_of_ascii c) in
  if (48 <=? n) && (n <=? 57) then Some (n - 48) else None.

Fixpoint read_digits (width : nat) (acc : Z) (s : string) : option (Z * string) :=
  match width with
  | O => Some (acc, s)
  | S w =>
      match s with
      | String c rest =>
          match digit_value c with
          | Some d => read_digits w (10 * acc + d) rest
          | None => None
          end
      | EmptyString => None
      end
  end.

Definition expect (c : ascii) (s : string) : option string :=
  match s with
  | String c' rest => if Ascii.eqb c c' then Some rest else None
  | EmptyString => None
  end.

Definition read_fraction (s : string) : option (Z * string) :=
  match s with
  | String "." rest => read_digits 6 0 rest
  | _ => Some (0, s)
  end.

Definition is_utc_designator (s : string) : bool :=
  String.eqb s "+00:00" || String.eqb s "Z".

Definition parse_iso8601_utc (s : string) : option datetime :=
  '(y, s) ← read_digits 4 0 s;
  s ← expect "-" s;
  '(mo, s) ← read_digits 2 0 s;
  s ← expect "-" s;
  '(d, s) ← read_digits 2 0 s;
  s ← expect "T" s;
  '(h, s) ← read_digits 2 0 s;
  s ← expect ":" s;
  '(mi, s) ← read_digits 2 0 s;
  s ← expect ":" s;
  '(se, s) ← read_digits 2 0 s;
  '(us, s) ← read_fraction s;
  let t := {| year := y; month := mo; day := d; hour := h; minute := mi;
              second := se; microsecond := us |} in
  if is_utc_designator s && valid_datetime t then Some t else None.

End Clock.
Import Clock.

(** ** router.py *)

Module Router.

(** The outcome of one [session.post]: a response with its status, or one
    of the exceptions the three [except] clauses of [forward_event] catch.
    When the status is 400 or more the body is read for the log message;
    an error while reading it is caught by the same clauses and the
    attempt continues in the same way, so it is not a separate case. *)
Inductive http_outcome : Type :=
  | Response (status : Z)
  | ClientError
  | TimeoutError
  | OtherError.

Record request : Type := {
  url : string;
  json : pyval;
  headers : list (string * string)
}.

Inductive effect : Type :=
  | Post (r : request)
  | Sleep (seconds : Z).

(** [aiohttp.ClientSession(timeout=ClientTimeout(total=...))] *)
Record ClientSession : Type := {
  total_timeout : Z
}.

(** [fw_config] is the forwarder's [config] attribute; the name [config]
    goes to the router's, below. *)
Record HTTPForwarder : Type := {
  fw_config : BridgeConfig;
  session : option ClientSession
}.

Definition HTTPForwarder_init (config : BridgeConfig) : HTTPForwarder :=
  {| fw_config := config; session := None |}.

Definition HTTPForwarder_start (self : HTTPForwarder) : HTTPForwarder :=
  {| fw_config := fw_config self;
     session := Some {| total_timeout := timeout (http (fw_config self)) |} |}.

Definition payload (event_type : string) (event_data : pyval) (now : datetime) : pyval :=
  PDict [("event_type", PStr event_type);
         ("data", event_data);
         ("timestamp", PStr (isoformat now));
         ("source", PStr "discord-bridge")].

Definition request_headers : list (string * string) :=
  [("Content-Type", "application/json");
   ("User-Agent", "discord-bridge/0.1.0")].

Section Forward.

(** The configuration, the request that every attempt posts, and the
    answer of the endpoint to the attempt with a given number. *)
Variable cfg : HTTPConfig.
Variable req : request.
Variable respond : Z → http_outcome.

(** What follows a failed attempt: the sleep unless it was the last
    attempt, then the rest of the loop. *)
Definition after_failure (attempt : Z) (rest : bool * list effect) : bool * list effect :=
  let pause :=
    if attempt <? retry_attempts cfg - 1 then [Sleep (retry_delay cfg)] else [] in
  (fst rest, Post req :: pause ++ snd rest).

(** [for attempt in range(retry_attempts)], from [attempt] on with
    [remaining] iterations to go; falling out of the loop returns
    [False]. *)
Fixpoint attempts (remaining : nat) (attempt : Z) : bool * list effect :=
  match remaining with
  | O => (false, [])
  | S remaining' =>
      match respond attempt with
      | Response status =>
          if status <? 400 then (true, [Post req])
          else after_failure attempt (attempts remaining' (attempt + 1))
      | ClientError | TimeoutError | OtherError =>
          after_failure attempt (attempts remaining' (attempt + 1))
      end
  end.

End Forward.

(** [forward_event]: the result, the forwarder as the call leaves it (the
    method assigns none of its attributes), and the POSTs and sleeps made,
    in order. [now] is the reading of the clock when the payload is
    built. *)
Definition forward_event (self : HTTPForwarder) (now : datetime)
    (respond : Z → http_outcome)
    (endpoint event_type : string) (event_data : pyval)
    : bool * HTTPForwarder * list effect :=
  match session self with
  | None => (false, self, [])
  | Some _ =>
      let req := {| url := endpoint;
                    json := payload event_type event_data now;
                    headers := request_headers |} in
      let cfg := http (fw_config self) in
      let '(ok, done) := attempts cfg req respond (Z.to_nat (retry_attempts cfg)) 0 in
      (ok, self, done)
  end.

Record Stats : Type := {
  events_received : Z;
  events_forwarded : Z;
  events_failed : Z;
  routes_processed : Z
}.

Definition zero_stats : Stats :=
  {| events_received := 0; events_forwarded := 0;
     events_failed := 0; routes_processed := 0 |}.

Record EventRouter : Type := {
  config : BridgeConfig;
  forwarder : HTTPForwarder;
  stats : Stats
}.

Definition EventRouter_init (cfg : BridgeConfig) : EventRouter :=
  {| config := cfg; forwarder := HTTPForwarder_init cfg; stats := zero_stats |}.

Definition EventRouter_start (self : EventRouter) : EventRouter :=
  {| config := config self;
     forwarder := HTTPForwarder_start (forwarder self);
     stats := stats self |}.

Definition set_stats (self : EventRouter) (s : Stats) : EventRouter :=
  {| config := config self; forwarder := forwarder self; stats := s |}.

(** [asyncio.gather] over the tasks, with its [return_exceptions] flag: with
    [return_exceptions] the exceptions of the tasks are results like any
    other; without it the first one is raised to the caller. *)
Fixpoint first_raise {A : Type} (results : list (res A)) : option exn :=
  match results with
  | [] => None
  | Raise e :: _ => Some e
  | Ret _ :: rest => first_raise rest
  end.

Definition gather {A : Type} (results : list (res A)) (return_exceptions : bool)
    : res (list (res A)) :=
  if return_exceptions then Ret results
  else match first_raise results with
       | Some e => Raise e
       | None => Ret results
       end.

(** [result is True] *)
Definition is_True (result : res bool) : bool :=
  match result with
  | Ret true => true
  | _ => false
  end.

Section Route.

(** What awaiting [self.forwarder.forward_event(endpoint, event_type,
    event_data)] gives in the task with a given position in [tasks]: a
    boolean, or an exception. *)
Variable forward : nat → string → string → pyval → res bool.

Definition _forward_to_endpoint (task : nat) (endpoint event_type : string)
    (event_data : pyval) : res bool :=
  match forward task endpoint event_type event_data with
  | Ret b => Ret b
  | Raise _ => Ret false
  end.

(** The two nested [for] loops that fill [tasks]. *)
Fixpoint task_endpoints (rs : list EventRoute) : list string :=
  match rs with
  | [] => []
  | route :: rest => endpoints route ++ task_endpoints rest
  end.

Definition handle_event (self : EventRouter) (event_type : string)
    (event_data : pyval) : res unit * EventRouter :=
  let s0 := stats self in
  let s1 := {| events_received := events_received s0 + 1;
               events_forwarded := events_forwarded s0;
               events_failed := events_failed s0;
               routes_processed := routes_processed s0 |} in
  let matched := get_routes_for_event (config self) event_type in
  match matched with
  | [] => (Ret tt, set_stats self s1)
  | _ :: _ =>
      let tasks :=
        imap (λ i endpoint, _forward_to_endpoint i endpoint event_type event_data)
             (task_endpoints matched) in
      match tasks with
      | [] => (Ret tt, set_stats self s1)
      | _ :: _ =>
          match gather tasks true with
          | Raise e => (Raise e, set_stats self s1)
          | Ret results =>
              let successes := Z.of_nat (length (filter (λ r, is_True r = true) results)) in
              let failures := Z.of_nat (length results) - successes in
              (Ret tt,
               set_stats self
                 {| events_received := events_received s1;
                    events_forwarded := events_forwarded s1 + successes;
                    events_failed := events_failed s1 + failures;
                    routes_processed := routes_processed s1 + 1 |})
          end
      end
  end.

End Route.

(** The router as [__init__] wires it: every task goes through the
    router's own forwarder. [now] and [respond] give, for the task with a
    given position, the reading of the clock and the answers of its
    endpoint. *)
Definition forward_via (fw : HTTPForwarder) (now : nat → datetime)
    (respond : nat → Z → http_outcome)
    (task : nat) (endpoint event_type : string) (event_data : pyval) : res bool :=
  Ret (fst (fst (forward_event fw (now task) (respond task) endpoint event_type
                           event_data))).

(** [get_stats] returns a copy of the dict: the counters as they are. *)
Definition get_stats (self : EventRouter) : Stats := stats self.

Definition reset_stats (self : EventRouter) : EventRouter :=
  set_stats self zero_stats.

End Router.
Import Router.

(** ** gateway.py *)

Module Gateway.

(** How long a sleep lasts. The heartbeat interval arrives in milliseconds
    and the source keeps it as the float [ms / 1000.0]; it is kept here by
    its number of milliseconds. *)
Inductive duration : Type :=
  | Seconds (s : Z)
  | Interval (ms : Z)
  | Jitter (ms : Z).

Inductive effect : Type :=
  | Connect (url : pyval)
  | Send (payload : pyval)
  | Sleep (d : duration)
  | CreateHeartbeatTask
  | Handler (event_type event_data : pyval).

(** What [websocket.recv()] followed by [json.loads] can deliver. *)
Inductive ws_item : Type :=
  | Recv (v : pyval)
  | RecvNotJson
  | RecvClosed
  | RecvError.

(** One connection of [websockets.connect]: refused, or opened with the
    frames that will arrive on it. *)
Inductive connection : Type :=
  | Refused
  | Opened (inbox : list ws_item).

Inductive WebSocket : Type :=
  | WebSocketTo (url : pyval).

Record GatewayClient : Type := {
  config : DiscordConfig;
  websocket : option WebSocket;
  session_id : pyval;
  resume_gateway_url : pyval;
  last_sequence : pyval;
  heartbeat_interval : option Z;
  heartbeat_task : bool;
  running : bool;
  event_handler : option (pyval → pyval → res unit)
}.

Definition GATEWAY_URL : string := "wss://gateway.discord.gg".

Definition GatewayClient_init (cfg : DiscordConfig) : GatewayClient :=
  {| config := cfg; websocket := None; session_id := PNone;
     resume_gateway_url := PNone; last_sequence := PNone;
     heartbeat_interval := None; heartbeat_task := false;
     running := false; event_handler := None |}.

Definition set_websocket (w : option WebSocket) (self : GatewayClient) : GatewayClient :=
  {| config := config self; websocket := w; session_id := session_id self;
     resume_gateway_url := resume_gateway_url self;
     last_sequence := last_sequence self;
     heartbeat_interval := heartbeat_interval self;
     heartbeat_task := heartbeat_task self; running := running self;
     event_handler := event_handler self |}.

Definition set_session_id (v : pyval) (self : GatewayClient) : GatewayClient :=
  {| config := config self; websocket := websocket self; session_id := v;
     resume_gateway_url := resume_gateway_url self;
     last_sequence := last_sequence self;
     heartbeat_interval := heartbeat_interval self;
     heartbeat_task := heartbeat_task self; running := running self;
     event_handler := event_handler self |}.

Definition set_resume_gateway_url (v : pyval) (self : GatewayClient) : GatewayClient :=
  {| config := config self; websocket := websocket self;
     session_id := session_id self; resume_gateway_url := v;
     last_sequence := last_sequence self;
     heartbeat_interval := heartbeat_interval self;
     heartbeat_task := heartbeat_task self; running := running self;
     event_handler := event_handler self |}.

Definition set_last_sequence (v : pyval) (self : GatewayClient) : GatewayClient :=
  {| config := config self; websocket := websocket self;
     session_id := session_id self;
     resume_gateway_url := resume_gateway_url self; last_sequence := v;
     heartbeat_interval := heartbeat_interval self;
     heartbeat_task := heartbeat_task self; running := running self;
     event_handler := event_handler self |}.

Definition set_heartbeat_interval (v : option Z) (self : GatewayClient) : GatewayClient :=
  {| config := config self; websocket := websocket self;
     session_id := session_id self;
     resume_gateway_url := resume_gateway_url self;
     last_sequence := last_sequence self; heartbeat_interval := v;
     heartbeat_task := heartbeat_task self; running := running self;
     event_handler := event_handler self |}.

Definition set_heartbeat_task (v : bool) (self : GatewayClient) : GatewayClient :=
  {| config := config self; websocket := websocket self;
     session_id := session_id self;
     resume_gateway_url := resume_gateway_url self;
     last_sequence := last_sequence self;
     heartbeat_interval := heartbeat_interval self; heartbeat_task := v;
     running := running self; event_handler := event_handler self |}.

Definition set_running (v : bool) (self : GatewayClient) : GatewayClient :=
  {| config := config self; websocket := websocket self;
     session_id := session_id self;
     resume_gateway_url := resume_gateway_url self;
     last_sequence := last_sequence self;
     heartbeat_interval := heartbeat_interval self;
     heartbeat_task := heartbeat_task self; running := v;
     event_handler := event_handler self |}.

Definition on_event (handler : pyval → pyval → res unit) (self : GatewayClient)
    : GatewayClient :=
  {| config := config self; websocket := websocket self;
     session_id := session_id self;
     resume_gateway_url := resume_gateway_url self;
     last_sequence := last_sequence self;
     heartbeat_interval := heartbeat_interval self;
     heartbeat_task := heartbeat_task self; running := running self;
     event_handler := Some handler |}.

(** *** Coroutines of the client

    A coroutine takes the client, and gives its result or the exception it
    raised, the client as it left it, and the effects it performed. What an
    exception leaves behind stays: assignments made before a [raise] are
    kept. *)

Definition M (A : Type) : Type :=
  GatewayClient → res A * GatewayClient * list effect.

#[global] Instance M_ret : MRet M := λ A a self, (Ret a, self, []).

#[global] Instance M_bind : MBind M := λ A B k m self,
  match m self with
  | (Ret a, self', done) =>
      match k a self' with
      | (r, self'', done') => (r, self'', done ++ done')
      end
  | (Raise e, self', done) => (Raise e, self', done)
  end.

Definition get_self : M GatewayClient := λ self, (Ret self, self, []).
Definition assign (f : GatewayClient → GatewayClient) : M unit :=
  λ self, (Ret tt, f self, []).
Definition emit (e : effect) : M unit := λ self, (Ret tt, self, [e]).
Definition raise {A : Type} (e : exn) : M A := λ self, (Raise e, self, []).
Definition lift {A : Type} (r : res A) : M A := λ self, (r, self, []).

(** [try: m] with the outcome handed to what follows. *)
Definition try {A : Type} (m : M A) : M (res A) := λ self,
  match m self with
  | (r, self', done) => (Ret r, self', done)
  end.

Notation "m1 ;; m2" := (mbind (λ _ : unit, m2) m1)
  (at level 100, m2 at level 200, right associativity).

Definition result {A : Type} (x : res A * GatewayClient * list effect) : res A :=
  fst (fst x).
Definition client {A : Type} (x : res A * GatewayClient * list effect) : GatewayClient :=
  snd (fst x).
Definition trace {A : Type} (x : res A * GatewayClient * list effect) : list effect :=
  snd x.

(** A send on the socket is recorded as an effect; a connection that has
    gone away shows on the receiving side, as [RecvClosed]. *)
Definition _send_payload (payload : pyval) : M unit :=
  self ← get_self;
  match websocket self with
  | None => raise (Exception "WebSocket not connected")
  | Some _ => emit (Send payload)
  end.

Definition _receive_event (incoming : ws_item) : M pyval :=
  self ← get_self;
  match websocket self with
  | None => raise (Exception "WebSocket not connected")
  | Some _ =>
      match incoming with
      | Recv v => mret v
      | RecvNotJson => raise (Exception "JSONDecodeError")
      | RecvClosed => raise ConnectionClosed
      | RecvError => raise WebSocketException
      end
  end.

Section Client.

(** [sys.platform] *)
Variable sys_platform : string.

Definition _identify : M unit :=
  self ← get_self;
  _send_payload
    (PDict [("op", PInt 2);
            ("d", PDict [("token", PStr (token (config self)));
                         ("intents", PInt (intents (config self)));
                         ("properties",
                          PDict [("$os", PStr sys_platform);
                                 ("$browser", PStr "discord-bridge");
                                 ("$device", PStr "discord-bridge")])])]).

Definition _resume : M unit :=
  self ← get_self;
  _send_payload
    (PDict [("op", PInt 6);
            ("d", PDict [("token", PStr (token (config self)));
                         ("session_id", session_id self);
                         ("seq", last_sequence self)])]).

(** One pass of the body of [while self.running] in [_heartbeat_loop];
    [false] when the loop ends (the flag is down, or the send failed). *)
Definition heartbeat_pass : M bool :=
  self ← get_self;
  if running self then
    r ← try (_send_payload (PDict [("op", PInt 1); ("d", last_sequence self)]);;
             match heartbeat_interval self with
             | Some ms => emit (Sleep (Interval ms))
             | None => raise (Exception "TypeError")
             end);
    match r with
    | Ret _ => mret true
    | Raise _ => mret false
    end
  else mret false.

(** [_heartbeat_loop] runs as a task of its own next to the receive loop,
    so each pass meets the client as the receive loop has left it by
    then: [snapshots] lists the client at each pass. The task's effects
    are returned; it assigns nothing. *)
Fixpoint heartbeat_passes (snapshots : list GatewayClient) : list effect :=
  match snapshots with
  | [] => []
  | self :: later =>
      match heartbeat_pass self with
      | (Ret true, _, done) => done ++ heartbeat_passes later
      | (_, _, done) => done
      end
  end.

Definition _heartbeat_loop (at_start : GatewayClient)
    (snapshots : list GatewayClient) : list effect :=
  match heartbeat_interval at_start with
  | None => []
  | Some ms => Sleep (Jitter ms) :: heartbeat_passes snapshots
  end.

Definition _handle_event (event : pyval) : M unit :=
  opcode ← lift (get event "op" PNone);
  if eq_int opcode 0 then
    s ← lift (get event "s" PNone);
    assign (set_last_sequence s);;
    event_type ← lift (get event "t" PNone);
    event_data ← lift (get event "d" (PDict []));
    (if eq_str event_type "READY" then
       sid ← lift (get event_data "session_id" PNone);
       assign (set_session_id sid);;
       url ← lift (get event_data "resume_gateway_url" PNone);
       assign (set_resume_gateway_url url)
     else mret tt);;
    self ← get_self;
    match event_handler self with
    | Some handler =>
        if truthy event_type then
          r ← try (emit (Handler event_type event_data);;
                   lift (handler event_type event_data));
          mret tt
        else mret tt
    | None => mret tt
    end
  else if eq_int opcode 1 then
    self ← get_self;
    _send_payload (PDict [("op", PInt 1); ("d", last_sequence self)])
  else if eq_int opcode 7 then
    raise ConnectionClosed
  else if eq_int opcode 9 then
    resumable ← lift (get event "d" (PBool false));
    if truthy resumable then
      emit (Sleep (Seconds 5))
    else
      assign (set_session_id PNone);;
      assign (set_last_sequence PNone);;
      emit (Sleep (Seconds 5))
  else if eq_int opcode 11 then
    mret tt
  else
    mret tt.

(** How [_event_loop] ends: by [break] after the connection was closed or
    failed, because [running] is down, or not at all within the frames
    given: it is suspended in [recv]. *)
Inductive loop_exit : Type :=
  | Broke
  | Stopped
  | Awaiting.

(** [inbox] holds what [recv] delivers, in order. The loop is entered from
    [_connect_and_run], with the socket set, and no event clears the
    socket; the properties of the loop are stated for that case. (With
    [websocket] None the source raises in [_receive_event] before any
    [recv] and goes round again without reading anything.) *)
Fixpoint _event_loop (inbox : list ws_item) : M loop_exit :=
  self ← get_self;
  if running self then
    match inbox with
    | [] => mret Awaiting
    | incoming :: later =>
        r ← try (event ← _receive_event incoming; _handle_event event);
        match r with
        | Ret _ => _event_loop later
        | Raise ConnectionClosed => mret Broke
        | Raise WebSocketException => mret Broke
        | Raise (Exception _) => _event_loop later
        end
    end
  else mret Stopped.

(** [heartbeat_interval / 1000.0], as milliseconds: a number is needed. *)
Definition milliseconds (v : pyval) : res Z :=
  match v with
  | PInt z => Ret z
  | PBool b => Ret (if b then 1 else 0)
  | _ => Raise (Exception "TypeError")
  end.

(** Lines 89 to 93 of [_connect_and_run]: identify or resume. *)
Definition authenticate : M unit :=
  self ← get_self;
  if truthy (session_id self) && negb (is_none (last_sequence self))
  then _resume
  else _identify.

(** [_connect_and_run] on a connection that opened. The URI is the
    chosen base URL followed by the fixed query string; the effect keeps
    the base URL. *)
Definition _connect_and_run (inbox : list ws_item) : M loop_exit :=
  self ← get_self;
  let url := if truthy (resume_gateway_url self) then resume_gateway_url self
             else PStr GATEWAY_URL in
  emit (Connect url);;
  assign (set_websocket (Some (WebSocketTo url)));;
  match inbox with
  | [] => mret Awaiting
  | first :: later =>
      hello_event ← _receive_event first;
      op ← lift (subscript hello_event "op");
      if negb (eq_int op 10) then
        raise (Exception "Expected HELLO event")
      else
        d ← lift (subscript hello_event "d");
        interval ← lift (subscript d "heartbeat_interval");
        ms ← lift (milliseconds interval);
        assign (set_heartbeat_interval (Some ms));;
        emit CreateHeartbeatTask;;
        assign (set_heartbeat_task true);;
        authenticate;;
        _event_loop later
  end.

(** The loop of [connect]: one connection after the other while
    [running]; after an exception, five seconds of sleep. *)
Fixpoint connect_loop (connections : list connection) : M loop_exit :=
  self ← get_self;
  if running self then
    match connections with
    | [] => mret Awaiting
    | c :: later =>
        r ← try (match c with
                 | Refused =>
                     self ← get_self;
                     let url := if truthy (resume_gateway_url self)
                                then resume_gateway_url self
                                else PStr GATEWAY_URL in
                     emit (Connect url);;
                     raise (Exception "connection refused")
                 | Opened inbox => _connect_and_run inbox
                 end);
        match r with
        | Ret Awaiting => mret Awaiting
        | Ret _ => connect_loop later
        | Raise _ =>
            self ← get_self;
            (if running self then emit (Sleep (Seconds 5)) else mret tt);;
            connect_loop later
        end
    end
  else mret Stopped.

Definition connect (connections : list connection) : M loop_exit :=
  assign (set_running true);;
  connect_loop connections.

End Client.

(** What [disconnect] does to the task and the socket. *)
Inductive shutdown_action : Type :=
  | CancelHeartbeatTask
  | CloseWebSocket.

(** [disconnect]: the flag goes down, the heartbeat task is cancelled if
    there is one, the socket is closed if there is one. *)
Definition disconnect (self : GatewayClient)
    : GatewayClient * list shutdown_action :=
  (set_running false self,
   (if heartbeat_task self then [CancelHeartbeatTask] else [])
   ++ (match websocket self with
       | Some _ => [CloseWebSocket]
       | None => []
       end)).

End Gateway.

(** * The vocabulary of the properties *)

(** ** Forwarding *)

(** An attempt fails when the endpoint answers with a status of 400 or
    more, or the request ends in a transport error or a timeout. *)
Definition failed (o : http_outcome) : bool :=
  match o with
  | Response status => 400 <=? status
  | ClientError | TimeoutError | OtherError => true
  end.

(** [n] POSTs of [req] with one sleep of [delay] between consecutive
    ones, and none after the last. *)
Fixpoint posts_with_sleeps (req : request) (delay : Z) (n : nat) : list effect :=
  match n with
  | O => []
  | S n' =>
      match n' with
      | O => [Post req]
      | S _ => Post req :: Sleep delay :: posts_with_sleeps req delay n'
      end
  end.

(** [k] failed attempts, each followed by its sleep. *)
Fixpoint failed_attempts (req : request) (delay : Z) (k : nat) : list effect :=
  match k with
  | O => []
  | S k' => Post req :: Sleep delay :: failed_attempts req delay k'
  end.

Definition is_post (e : effect) : bool :=
  match e with
  | Post _ => true
  | Sleep _ => false
  end.

(** The number of POST requests among the effects. *)
Definition posts (done : list effect) : nat :=
  length (filter (λ e, is_post e = true) done).

(** ** Routing *)

(** The number of (route, endpoint) pairs across the given routes. *)
Definition pairs (matched : list EventRoute) : nat :=
  sum_list ((λ r, length (endpoints r)) <$> matched).

(** The number of [True] results. *)
Definition successes (results : list (res bool)) : nat :=
  length (filter (λ r, is_True r = true) results).

(** ** The session *)

(** The order on sequence values: null is below everything, integers are
    ordered as integers. *)
Definition seq_le (a b : pyval) : bool :=
  match a, b with
  | PNone, _ => true
  | PInt x, PInt y => x <=? y
  | _, _ => false
  end.

Definition heartbeat_frame (seq : pyval) : pyval :=
  PDict [("op", PInt 1); ("d", seq)].

Definition identify_frame (platform : string) (cfg : DiscordConfig) : pyval :=
  PDict [("op", PInt 2);
         ("d", PDict [("token", PStr (token cfg));
                      ("intents", PInt (intents cfg));
                      ("properties",
                       PDict [("$os", PStr platform);
                              ("$browser", PStr "discord-bridge");
                              ("$device", PStr "discord-bridge")])])].

Definition resume_frame (cfg : DiscordConfig) (sid seq : pyval) : pyval :=
  PDict [("op", PInt 6);
         ("d", PDict [("token", PStr (token cfg));
                      ("session_id", sid);
                      ("seq", seq)])].

(** The frames sent, among the effects. *)
Fixpoint sent (done : list Gateway.effect) : list pyval :=
  match done with
  | [] => []
  | Gateway.Send p :: rest => p :: sent rest
  | _ :: rest => sent rest
  end.

(** ** Sample values *)

Definition example_discord : DiscordConfig :=
  {| token := "valid_token_here"; intents := 513 |}.

(** A client in the RUNNING state of a first connection. *)
Definition running_client : Gateway.GatewayClient :=
  {| Gateway.config := example_discord;
     Gateway.websocket := Some (Gateway.WebSocketTo (PStr Gateway.GATEWAY_URL));
     Gateway.session_id := PStr "s1";
     Gateway.resume_gateway_url := PNone;
     Gateway.last_sequence := PInt 10;
     Gateway.heartbeat_interval := Some 41250;
     Gateway.heartbeat_task := true;
     Gateway.running := true;
     Gateway.event_handler := None |}.

Definition hello : pyval :=
  PDict [("op", PInt 10); ("d", PDict [("heartbeat_interval", PInt 41250)])].

Definition dispatch (s : Z) (t : string) : pyval :=
  PDict [("op", PInt 0); ("s", PInt s); ("t", PStr t); ("d", PDict [])].

Definition ready (s : Z) (sid : string) : pyval :=
  PDict [("op", PInt 0); ("s", PInt s); ("t", PStr "READY");
         ("d", PDict [("session_id", PStr sid)])].

Definition heartbeat_request : pyval := PDict [("op", PInt 1)].

Definition invalid_session (resumable : bool) : pyval :=
  PDict [("op", PInt 9); ("d", PBool resumable)].

Definition example_http : HTTPConfig :=
  {| timeout := 30; retry_attempts := 3; retry_delay := 1 |}.

Definition example_config : BridgeConfig :=
  {| discord := example_discord;
     http := example_http;
     routes := [ {| event_name := "MESSAGE_CREATE";
                    endpoints := ["https://example.com/messages";
                                  "https://backup.com/messages"];
                    enabled := true |};
                 {| event_name := "MESSAGE_CREATE";
                    endpoints := ["https://disabled.com/messages"];
                    enabled := false |};
                 {| event_name := "GUILD_MEMBER_ADD";
                    endpoints := [];
                    enabled := true |} ] |}.

Definition example_now : datetime :=
  {| year := 2024; month := 2; day := 29; hour := 12; minute := 0;
     second := 7; microsecond := 250000 |}.

Definition example_forwarder : HTTPForwarder :=
  HTTPForwarder_start (HTTPForwarder_init example_config).

(** ** More vocabulary: sequences of calls, sleeping time, sample values *)

(** The seconds slept, among the effects of the forwarder. *)
Fixpoint slept (done : list effect) : Z :=
  match done with
  | [] => 0
  | Sleep seconds :: rest => seconds + slept rest
  | Post _ :: rest => slept rest
  end.

(** One call of [handle_event]: what its forward tasks do, and its
    arguments. *)
Record call : Type := {
  call_forward : nat → string → string → pyval → res bool;
  call_event_type : string;
  call_event_data : pyval
}.

(** The router after a series of calls of [handle_event], one after the
    other. *)
Fixpoint handle_events (calls : list call) (self : EventRouter) : EventRouter :=
  match calls with
  | [] => self
  | c :: later =>
      handle_events later
        (handle_event (call_forward c) self (call_event_type c)
           (call_event_data c)).2
  end.

Definition call_pairs (cfg : BridgeConfig) (c : call) : nat :=
  pairs (get_routes_for_event cfg (call_event_type c)).

(** The handler calls, among the effects of the session. *)
Fixpoint handled (done : list Gateway.effect) : list (pyval * pyval) :=
  match done with
  | [] => []
  | Gateway.Handler t d :: rest => (t, d) :: handled rest
  | _ :: rest => handled rest
  end.

Definition is_dict (v : pyval) : bool :=
  match v with PDict _ => true | _ => false end.

(** A reader of plain decimal numerals, to stand for [int] in examples. *)
Fixpoint decimal_digits (acc : Z) (s : string) : res Z :=
  match s with
  | EmptyString => Ret acc
  | String c rest =>
      match digit_value c with
      | Some d => decimal_digits (10 * acc + d) rest
      | None => Raise (Exception "ValueError")
      end
  end.

Definition decimal (s : string) : res Z :=
  match s with
  | EmptyString => Raise (Exception "ValueError")
  | _ => decimal_digits 0 s
  end.

(** The environment of the test of [from_env]. *)
Definition example_environ (name : string) : option string :=
  if String.eqb name "DISCORD_TOKEN" then Some "test_token"
  else if String.eqb name "DISCORD_INTENTS" then Some "1024"
  else if String.eqb name "LOG_LEVEL" then Some "DEBUG"
  else None.

(** The counters after a call: only [events_received] moves when there
    is no (route, endpoint) pair. *)
Definition stats_after (before : Stats) (n s : nat) : Stats :=
  if decide (n = 0%nat) then
    {| events_received := events_received before + 1;
       events_forwarded := events_forwarded before;
       events_failed := events_failed before;
       routes_processed := routes_processed before |}
  else
    {| events_received := events_received before + 1;
       events_forwarded := events_forwarded before + Z.of_nat s;
       events_failed := events_failed before + (Z.of_nat n - Z.of_nat s);
       routes_processed := routes_processed before + 1 |}.

(** The calls among [calls] that had at least one pair. *)
Definition calls_with_pairs (cfg : BridgeConfig) (calls : list call) : nat :=
  length (filter (λ c, call_pairs cfg c ≠ 0%nat) calls).

(** The attributes no frame touches. *)
Definition same_wiring (a b : Gateway.GatewayClient) : Prop :=
  Gateway.config a = Gateway.config b
  ∧ Gateway.websocket a = Gateway.websocket b
  ∧ Gateway.heartbeat_interval a = Gateway.heartbeat_interval b
  ∧ Gateway.heartbeat_task a = Gateway.heartbeat_task b
  ∧ Gateway.running a = Gateway.running b
  ∧ Gateway.event_handler a = Gateway.event_handler b.

(** The base URL [_connect_and_run] connects to. *)
Definition chosen_url (self : Gateway.GatewayClient) : pyval :=
  if truthy (Gateway.resume_gateway_url self)
  then Gateway.resume_gateway_url self
  else PStr Gateway.GATEWAY_URL.

(** The client once HELLO has been taken in. *)
Definition after_hello (self : Gateway.GatewayClient) (ms : Z)
    : Gateway.GatewayClient :=
  Gateway.set_heartbeat_task true
    (Gateway.set_heartbeat_interval (Some ms)
       (Gateway.set_websocket
          (Some (Gateway.WebSocketTo (chosen_url self))) self)).

(** The frame of lines 89 to 93. *)
Definition authentication_frame (platform : string)
    (self : Gateway.GatewayClient) : pyval :=
  if truthy (Gateway.session_id self)
     && negb (is_none (Gateway.last_sequence self))
  then resume_frame (Gateway.config self) (Gateway.session_id self)
         (Gateway.last_sequence self)
  else identify_frame platform (Gateway.config self).

(** * Properties *)

(** ** Route lookup *)

Lemma routes_comprehension_elem (rs : list EventRoute) (e : string) (r : EventRoute) :
  r ∈ routes_comprehension rs e ↔ r ∈ rs ∧ event_name r = e ∧ enabled r = true.
Proof.
  induction rs as [|x rs IH]; simpl.
  - split; [intros H | intros [H _]]; inversion H.
  - destruct (String.eqb (event_name x) e && enabled x) eqn:Hx.
    + apply andb_true_iff in Hx as [Hn He]. apply String.eqb_eq in Hn.
      rewrite !elem_of_cons, IH. split.
      * intros [->|(? & ? & ?)]; auto.
      * intros [[->|?] [? ?]]; auto.
    + rewrite IH, elem_of_cons. split.
      { intros (? & ? & ?); auto. }
      intros [[->|Hin] [Hn He]]; [|done].
      apply String.eqb_eq in Hn. rewrite Hn, He in Hx. discriminate.
Qed.

Lemma routes_comprehension_sublist (rs : list EventRoute) (e : string) :
  routes_comprehension rs e `sublist_of` rs.
Proof.
  induction rs as [|x rs IH]; simpl; [constructor|].
  destruct (String.eqb (event_name x) e && enabled x); by constructor.
Qed.

Lemma routes_comprehension_filter (rs : list EventRoute) (e : string) :
  routes_comprehension rs e = filter (λ r, event_name r = e ∧ enabled r = true) rs.
Proof.
  induction rs as [|x rs IH]; simpl; [done|].
  rewrite filter_cons. destruct (String.eqb (event_name x) e && enabled x) eqn:Hx.
  - apply andb_true_iff in Hx as [Hn He]. apply String.eqb_eq in Hn.
    rewrite decide_True by done. by f_equal.
  - rewrite decide_False; [done|]. intros [Hn He].
    apply String.eqb_eq in Hn. rewrite Hn, He in Hx. discriminate.
Qed.

(** C8. For every configuration [C] and event name [e],
    [get_routes_for_event C e] holds exactly the routes of [C.routes] whose
    [event_name] is [e] and whose [enabled] is true: it has those members
    and no others, it is a subsequence of [C.routes] (definition order is
    kept), and no matching occurrence is dropped or duplicated (it is the
    filter of [C.routes] by the two conditions). *)
Theorem get_routes_for_event_exact (C : BridgeConfig) (e : string) :
  (∀ r, r ∈ get_routes_for_event C e ↔
        r ∈ routes C ∧ event_name r = e ∧ enabled r = true)
  ∧ get_routes_for_event C e `sublist_of` routes C
  ∧ get_routes_for_event C e =
      filter (λ r, event_name r = e ∧ enabled r = true) (routes C).
Proof.
  unfold get_routes_for_event. split; [|split].
  - intros r. apply routes_comprehension_elem.
  - apply routes_comprehension_sublist.
  - apply routes_comprehension_filter.
Qed.

(** ** The forwarded envelope and its timestamp *)

Section ClockProperties.

Lemma digit_value_digit (d : Z) :
  0 <= d < 10 → digit_value (digit d) = Some d.
Proof.
  intros H.
  assert (d = 0 ∨ d = 1 ∨ d = 2 ∨ d = 3 ∨ d = 4 ∨ d = 5 ∨ d = 6 ∨ d = 7
          ∨ d = 8 ∨ d = 9) as Hd by lia.
  repeat (destruct Hd as [-> | Hd]; [reflexivity|]). by subst.
Qed.

Lemma append_String (c : ascii) (s rest : string) :
  String c s +:+ rest = String c (s +:+ rest).
Proof. reflexivity. Qed.

Lemma read_digits_zero_padded (w : nat) : ∀ (n acc : Z) (rest : string),
  0 <= n < 10 ^ Z.of_nat w →
  read_digits w acc (zero_padded w n +:+ rest)
  = Some (acc * 10 ^ Z.of_nat w + n, rest).
Proof.
  induction w as [|w IH]; intros n acc rest Hn.
  - simpl in *. f_equal. f_equal. lia.
  - rewrite Nat2Z.inj_succ, Z.pow_succ_r in * by lia.
    set (p := 10 ^ Z.of_nat w) in *.
    assert (0 < p) as Hp by (apply Z.pow_pos_nonneg; lia).
    assert (0 <= n / p < 10) as Hq.
    { split; [apply Z.div_pos; lia | apply Z.div_lt_upper_bound; lia]. }
    pose proof (Z.mod_pos_bound n p Hp) as Hr.
    pose proof (Z.div_mod n p ltac:(lia)) as Hdm.
    cbn [zero_padded]. fold p. rewrite append_String.
    cbn [read_digits]. rewrite digit_value_digit by done.
    rewrite IH by (fold p; lia). fold p.
    f_equal. f_equal. nia.
Qed.

Lemma read_field (w : nat) (n : Z) (rest : string) :
  0 <= n < 10 ^ Z.of_nat w →
  read_digits w 0 (zero_padded w n +:+ rest) = Some (n, rest).
Proof.
  intros H. rewrite read_digits_zero_padded by done. f_equal.
Qed.

Lemma expect_append (c : ascii) (rest : string) :
  expect c (String c EmptyString +:+ rest) = Some rest.
Proof. rewrite append_String. simpl. by rewrite Ascii.eqb_refl. Qed.

Lemma days_in_month_le (y m : Z) : days_in_month y m <= 31.
Proof.
  unfold days_in_month.
  repeat match goal with |- context [if ?b then _ else _] => destruct b end; lia.
Qed.

Lemma valid_datetime_bounds (t : datetime) :
  valid_datetime t = true →
  0 <= year t < 10 ^ 4 ∧ 0 <= month t < 10 ^ 2 ∧ 0 <= day t < 10 ^ 2
  ∧ 0 <= hour t < 10 ^ 2 ∧ 0 <= minute t < 10 ^ 2 ∧ 0 <= second t < 10 ^ 2
  ∧ 0 <= microsecond t < 10 ^ 6.
Proof.
  unfold valid_datetime. rewrite !andb_true_iff, !Z.leb_le, !Z.ltb_lt.
  pose proof (days_in_month_le (year t) (month t)). lia.
Qed.

(** Reading back what [isoformat] prints gives the instant printed. *)
Lemma parse_isoformat (t : datetime) :
  valid_datetime t = true → parse_iso8601_utc (isoformat t) = Some t.
Proof.
  intros Hv. pose proof (valid_datetime_bounds t Hv) as (Hy & Hmo & Hd & Hh & Hmi & Hs & Hus).
  unfold parse_iso8601_utc, isoformat.
  rewrite (read_field 4) by done. cbn [mbind option_bind].
  rewrite expect_append. cbn [mbind option_bind].
  rewrite (read_field 2) by done. cbn [mbind option_bind].
  rewrite expect_append. cbn [mbind option_bind].
  rewrite (read_field 2) by done. cbn [mbind option_bind].
  rewrite expect_append. cbn [mbind option_bind].
  rewrite (read_field 2) by done. cbn [mbind option_bind].
  rewrite expect_append. cbn [mbind option_bind].
  rewrite (read_field 2) by done. cbn [mbind option_bind].
  rewrite expect_append. cbn [mbind option_bind].
  rewrite (read_field 2) by done. cbn [mbind option_bind].
  destruct t as [y mo d h mi s us]; cbn [microsecond] in *.
  cbn [year month day hour minute second] in *.
  destruct (us =? 0) eqn:Hz.
  - apply Z.eqb_eq in Hz. subst us.
    change (read_fraction ("" +:+ "+00:00")) with (Some (0, "+00:00")).
    cbn [mbind option_bind].
    change (is_utc_designator "+00:00") with true.
    cbn [andb]. by rewrite Hv.
  - change (("." +:+ zero_padded 6 us) +:+ "+00:00")
      with (String "." (zero_padded 6 us +:+ "+00:00")).
    cbn [read_fraction]. rewrite (read_field 6) by done.
    cbn [mbind option_bind].
    change (is_utc_designator "+00:00") with true.
    cbn [andb]. by rewrite Hv.
Qed.

End ClockProperties.

Example isoformat_with_fraction :
  isoformat {| year := 2024; month := 1; day := 2; hour := 3; minute := 4;
               second := 5; microsecond := 678 |}
  = "2024-01-02T03:04:05.000678+00:00".
Proof. reflexivity. Qed.

Example isoformat_whole_second :
  isoformat {| year := 987; month := 12; day := 31; hour := 23; minute := 59;
               second := 59; microsecond := 0 |}
  = "0987-12-31T23:59:59+00:00".
Proof. reflexivity. Qed.

(** ** The HTTP forwarder *)

Section ForwarderProperties.

Variable cfg : HTTPConfig.
Variable req : request.
Variable respond : Z → http_outcome.

Lemma attempts_all_failed (remaining : nat) : ∀ attempt : Z,
  attempt + Z.of_nat remaining = retry_attempts cfg →
  (∀ i, attempt <= i < retry_attempts cfg → failed (respond i) = true) →
  attempts cfg req respond remaining attempt
  = (false, posts_with_sleeps req (retry_delay cfg) remaining).
Proof.
  induction remaining as [|remaining IH]; intros attempt Hn Hfail; [done|].
  assert (failed (respond attempt) = true) as Hf by (apply Hfail; lia).
  assert (attempts cfg req respond (S remaining) attempt
          = after_failure cfg req attempt
              (attempts cfg req respond remaining (attempt + 1))) as ->.
  { simpl. destruct (respond attempt) as [status| | |]; try done.
    simpl in Hf. apply Z.leb_le in Hf.
    destruct (status <? 400) eqn:Hs; [apply Z.ltb_lt in Hs; lia | done]. }
  rewrite IH by (try lia; intros i Hi; apply Hfail; lia).
  unfold after_failure. cbn [fst snd]. f_equal.
  destruct remaining as [|remaining].
  - rewrite (proj2 (Z.ltb_ge _ _)) by lia. done.
  - rewrite (proj2 (Z.ltb_lt _ _)) by lia. done.
Qed.

Lemma attempts_first_success (remaining : nat) : ∀ (attempt : Z) (k : nat),
  attempt + Z.of_nat remaining = retry_attempts cfg →
  (k < remaining)%nat →
  (∀ i, attempt <= i < attempt + Z.of_nat k → failed (respond i) = true) →
  failed (respond (attempt + Z.of_nat k)) = false →
  attempts cfg req respond remaining attempt
  = (true, failed_attempts req (retry_delay cfg) k ++ [Post req]).
Proof.
  induction remaining as [|remaining IH]; intros attempt k Hn Hk Hfail Hok; [lia|].
  destruct k as [|k].
  - rewrite Z.add_0_r in Hok. simpl.
    destruct (respond attempt) as [status| | |]; try discriminate.
    simpl in Hok. apply Z.leb_gt in Hok.
    by rewrite (proj2 (Z.ltb_lt _ _)) by lia.
  - assert (failed (respond attempt) = true) as Hf by (apply Hfail; lia).
    assert (attempts cfg req respond (S remaining) attempt
            = after_failure cfg req attempt
                (attempts cfg req respond remaining (attempt + 1))) as ->.
    { simpl. destruct (respond attempt) as [status| | |]; try done.
      simpl in Hf. apply Z.leb_le in Hf.
      destruct (status <? 400) eqn:Hs; [apply Z.ltb_lt in Hs; lia | done]. }
    rewrite (IH (attempt + 1) k); try lia.
    + unfold after_failure. cbn [fst snd].
      rewrite (proj2 (Z.ltb_lt _ _)) by lia. done.
    + intros i Hi. apply Hfail. lia.
    + replace (attempt + 1 + Z.of_nat k) with (attempt + Z.of_nat (S k)) by lia.
      done.
Qed.

Lemma posts_posts_with_sleeps (delay : Z) (n : nat) :
  posts (posts_with_sleeps req delay n) = n.
Proof.
  unfold posts. induction n as [|n IH]; [done|].
  destruct n as [|n]; [done|].
  change (posts_with_sleeps req delay (S (S n)))
    with (Post req :: Sleep delay :: posts_with_sleeps req delay (S n)).
  rewrite filter_cons_True by done.
  rewrite filter_cons_False by done.
  cbn [length]. by rewrite IH.
Qed.

Lemma posts_failed_attempts (delay : Z) (k : nat) (rest : list effect) :
  posts (failed_attempts req delay k ++ rest) = (k + posts rest)%nat.
Proof.
  unfold posts. induction k as [|k IH]; [done|].
  cbn [failed_attempts app].
  rewrite filter_cons_True by done.
  rewrite filter_cons_False by done.
  cbn [length]. by rewrite IH.
Qed.

Lemma last_posts_with_sleeps (delay : Z) (n : nat) :
  (0 < n)%nat → last (posts_with_sleeps req delay n) = Some (Post req).
Proof.
  induction n as [|n IH]; [lia|]. intros _.
  destruct n as [|n]; [done|].
  change (posts_with_sleeps req delay (S (S n)))
    with (Post req :: Sleep delay :: posts_with_sleeps req delay (S n)).
  rewrite !last_cons, IH by lia. done.
Qed.

Lemma attempts_posts_req (remaining : nat) : ∀ (attempt : Z) (r : request),
  Post r ∈ snd (attempts cfg req respond remaining attempt) → r = req.
Proof.
  induction remaining as [|remaining IH]; intros attempt r; simpl.
  { intros H. inversion H. }
  assert (Post r ∈ snd (after_failure cfg req attempt
                          (attempts cfg req respond remaining (attempt + 1)))
          → r = req) as Hafter.
  { unfold after_failure. cbn [snd].
    rewrite elem_of_cons, elem_of_app. intros [Heq | [Hp | Hrest]].
    - by injection Heq.
    - destruct (attempt <? retry_attempts cfg - 1).
      + apply list_elem_of_singleton in Hp. discriminate.
      + inversion Hp.
    - by apply IH in Hrest. }
  destruct (respond attempt) as [status| | |]; try done.
  destruct (status <? 400); [|done].
  cbn [snd]. intros H. apply list_elem_of_singleton in H. by injection H.
Qed.

End ForwarderProperties.

(** C5. With the HTTP session started and [retry_attempts] a count (not
    negative): when every attempt fails (status 400 or more, transport
    error or timeout), [forward_event] returns false after exactly
    [retry_attempts] POSTs, with one sleep of [retry_delay] between
    consecutive POSTs and none after the last; and when attempt [k] is the
    first with a status below 400, it returns true after [k] failed
    attempts, each followed by its sleep, and the POST that succeeded,
    with nothing after it. *)
Theorem forward_event_retry_budget (self : HTTPForwarder) (now : datetime)
    (respond : Z → http_outcome) (endpoint event_type : string)
    (event_data : pyval)
    (Hsession : session self ≠ None)
    (Hcount : 0 <= retry_attempts (http (fw_config self))) :
  let n := retry_attempts (http (fw_config self)) in
  let delay := retry_delay (http (fw_config self)) in
  let req := {| url := endpoint; json := payload event_type event_data now;
                headers := request_headers |} in
  let out := forward_event self now respond endpoint event_type event_data in
  ((∀ i, 0 <= i < n → failed (respond i) = true) →
     out.1.1 = false
     ∧ out.2 = posts_with_sleeps req delay (Z.to_nat n)
     ∧ Z.of_nat (posts out.2) = n
     ∧ (0 < n → last out.2 = Some (Post req)))
  ∧ (∀ k, 0 <= k < n →
       (∀ i, 0 <= i < k → failed (respond i) = true) →
       failed (respond k) = false →
       out.1.1 = true
       ∧ out.2 = failed_attempts req delay (Z.to_nat k) ++ [Post req]
       ∧ Z.of_nat (posts out.2) = k + 1).
Proof.
  intros n delay req out. subst out. unfold forward_event.
  destruct (session self) as [sess|]; [|done]. fold req. fold n.
  split.
  - intros Hfail.
    rewrite (attempts_all_failed _ req respond (Z.to_nat n) 0) by (fold n; lia || auto).
    cbn [fst snd]. fold delay. split; [done|]. split; [done|].
    rewrite posts_posts_with_sleeps. split; [lia|].
    intros Hpos. apply last_posts_with_sleeps. lia.
  - intros k Hk Hfail Hok.
    rewrite (attempts_first_success _ req respond (Z.to_nat n) 0 (Z.to_nat k)).
    + cbn [fst snd]. fold delay. split; [done|]. split; [done|].
      rewrite posts_failed_attempts. unfold posts. simpl. lia.
    + fold n. lia.
    + lia.
    + intros i Hi. apply Hfail. lia.
    + rewrite Z2Nat.id by lia. done.
Qed.

Lemma forward_event_retry_budget_witness :
  (forward_event example_forwarder example_now (λ _, Response 500)
     "https://example.com/messages" "MESSAGE_CREATE" (PDict [])).1.1 = false
  ∧ posts (forward_event example_forwarder example_now (λ _, Response 500)
             "https://example.com/messages" "MESSAGE_CREATE" (PDict [])).2 = 3%nat.
Proof.
  destruct (forward_event_retry_budget example_forwarder example_now
              (λ _, Response 500) "https://example.com/messages"
              "MESSAGE_CREATE" (PDict [])) as [Hall _].
  - discriminate.
  - simpl. lia.
  - destruct Hall as (Hres & _ & Hposts & _); [reflexivity|].
    split; [exact Hres|]. apply Nat2Z.inj. exact Hposts.
Defined.

(** C9. With the clock giving a [datetime], every POST that
    [forward_event] makes for event type [t] and payload [d] goes to the
    endpoint with a JSON object of exactly the four fields [event_type]
    equal to [t], [data] equal to [d], [timestamp] a string that reads
    back, as an ISO-8601 UTC instant, to the reading of the clock, and
    [source] equal to ["discord-bridge"]; the headers are [Content-Type:
    application/json] and the fixed [User-Agent]. *)
Theorem forward_event_envelope (self : HTTPForwarder) (now : datetime)
    (respond : Z → http_outcome) (endpoint t : string) (d : pyval)
    (r : request)
    (Hclock : valid_datetime now = true)
    (Hposted : Post r ∈ (forward_event self now respond endpoint t d).2) :
  url r = endpoint
  ∧ (∃ ts : string,
       json r = PDict [("event_type", PStr t); ("data", d);
                       ("timestamp", PStr ts);
                       ("source", PStr "discord-bridge")]
       ∧ parse_iso8601_utc ts = Some now)
  ∧ headers r = [("Content-Type", "application/json");
                 ("User-Agent", "discord-bridge/0.1.0")].
Proof.
  unfold forward_event in Hposted.
  destruct (session self) as [sess|]; [|inversion Hposted].
  destruct (attempts _ _ _ _ _) as [ok done] eqn:Hat. cbn [snd] in Hposted.
  assert (Post r ∈ snd (attempts (http (fw_config self))
            {| url := endpoint; json := payload t d now;
               headers := request_headers |}
            respond (Z.to_nat (retry_attempts (http (fw_config self)))) 0))
    as Hin by (by rewrite Hat).
  apply attempts_posts_req in Hin. subst r. cbn [url json headers].
  split; [done|]. split; [|done].
  exists (isoformat now). split; [done|]. by apply parse_isoformat.
Qed.

Lemma forward_event_envelope_witness :
  ∃ ts : string,
    PDict [("event_type", PStr "MESSAGE_CREATE"); ("data", PDict [("id", PStr "1")]);
           ("timestamp", PStr ts); ("source", PStr "discord-bridge")]
    = payload "MESSAGE_CREATE" (PDict [("id", PStr "1")]) example_now
    ∧ parse_iso8601_utc ts = Some example_now.
Proof.
  destruct (forward_event_envelope example_forwarder example_now
              (λ _, Response 204) "https://example.com/messages"
              "MESSAGE_CREATE" (PDict [("id", PStr "1")])
              {| url := "https://example.com/messages";
                 json := payload "MESSAGE_CREATE" (PDict [("id", PStr "1")])
                           example_now;
                 headers := request_headers |})
    as (_ & (ts & Hjson & Hts) & _).
  - reflexivity.
  - simpl. apply list_elem_of_singleton. reflexivity.
  - exists ts. split; [symmetry; exact Hjson | exact Hts].
Defined.

(** C10. Called before the HTTP session is started ([session] is null),
    [forward_event] returns false at once: no POST, no sleep, and the
    forwarder is as it was. *)
Theorem forward_event_without_session (self : HTTPForwarder) (now : datetime)
    (respond : Z → http_outcome) (endpoint event_type : string)
    (event_data : pyval)
    (Hnone : session self = None) :
  forward_event self now respond endpoint event_type event_data
  = (false, self, []).
Proof. unfold forward_event. by rewrite Hnone. Qed.

Lemma forward_event_without_session_witness :
  forward_event (HTTPForwarder_init example_config) example_now
    (λ _, Response 204) "https://example.com/messages" "MESSAGE_CREATE"
    (PDict [])
  = (false, HTTPForwarder_init example_config, []).
Proof.
  apply (forward_event_without_session (HTTPForwarder_init example_config)).
  reflexivity.
Defined.

(** ** The event router *)

Section RouterProperties.

Variable forward : nat → string → string → pyval → res bool.

Lemma length_task_endpoints (rs : list EventRoute) :
  length (task_endpoints rs) = pairs rs.
Proof.
  unfold pairs. induction rs as [|r rs IH]; [done|].
  cbn [task_endpoints fmap list_fmap sum_list sum_list_with].
  rewrite length_app. by rewrite IH.
Qed.

Lemma is_True_forward_to_endpoint (i : nat) (endpoint event_type : string)
    (event_data : pyval) :
  is_True (_forward_to_endpoint forward i endpoint event_type event_data)
  = is_True (forward i endpoint event_type event_data).
Proof.
  unfold _forward_to_endpoint.
  by destruct (forward i endpoint event_type event_data) as [[|]|e].
Qed.

Lemma successes_imap_ext {A : Type} (l : list A) :
  ∀ f g : nat → A → res bool,
  (∀ i x, is_True (f i x) = is_True (g i x)) →
  successes (imap f l) = successes (imap g l).
Proof.
  unfold successes. induction l as [|x l IH]; intros f g Hfg; [done|].
  rewrite !imap_cons, !filter_cons, Hfg.
  destruct (decide (is_True (g 0%nat x) = true)); cbn [length];
    rewrite (IH (f ∘ S) (g ∘ S)); auto; intros i y; apply Hfg.
Qed.

Lemma successes_le (results : list (res bool)) :
  (successes results <= length results)%nat.
Proof. apply length_filter. Qed.

End RouterProperties.

(** C4 (as amended). For every call to [handle_event], whatever the
    forward tasks do (return true, return false, or raise): the call
    returns normally and [events_received] grows by 1. When the matched
    enabled routes have at least one (route, endpoint) pair between them,
    the growth of [events_forwarded] plus the growth of [events_failed] is
    the number of pairs, [events_forwarded] grows by the number of tasks
    that returned true and [events_failed] by the number of all others
    (those that returned false and those that raised), and
    [routes_processed] grows by exactly 1. When there is no pair (no
    matching route, or matching routes without endpoints), the other three
    counters are unchanged. *)
Theorem handle_event_statistics
    (forward : nat → string → string → pyval → res bool)
    (self : EventRouter) (event_type : string) (event_data : pyval) :
  let matched := get_routes_for_event (Router.config self) event_type in
  let n := Z.of_nat (pairs matched) in
  let outcomes :=
    imap (λ i endpoint, forward i endpoint event_type event_data)
         (task_endpoints matched) in
  let s := Z.of_nat (successes outcomes) in
  let out := handle_event forward self event_type event_data in
  let before := stats self in
  let after := stats out.2 in
  out.1 = Ret tt
  ∧ events_received after = events_received before + 1
  ∧ (0 < n →
       (events_forwarded after - events_forwarded before)
       + (events_failed after - events_failed before) = n
       ∧ events_forwarded after = events_forwarded before + s
       ∧ events_failed after = events_failed before + (n - s)
       ∧ 0 <= s <= n
       ∧ routes_processed after = routes_processed before + 1)
  ∧ (n = 0 →
       events_forwarded after = events_forwarded before
       ∧ events_failed after = events_failed before
       ∧ routes_processed after = routes_processed before).
Proof.
  intros matched n outcomes s out before after.
  subst out after n s outcomes. unfold handle_event. fold matched. fold before.
  pose proof (length_task_endpoints matched) as Hlen.
  destruct matched as [|r rs] eqn:Hm.
  { cbn [fst snd stats set_stats events_received events_forwarded
         events_failed routes_processed pairs fmap list_fmap sum_list
         sum_list_with]. repeat split; try done; lia. }
  rewrite <- Hm in *. clear Hm.
  destruct (task_endpoints matched) as [|endpoint eps] eqn:He.
  { cbn [imap]. cbn [fst snd stats set_stats events_received events_forwarded
         events_failed routes_processed].
    cbn [length] in Hlen. rewrite <- Hlen.
    repeat split; try done; lia. }
  rewrite <- He in *.
  set (results := imap (λ i ep, _forward_to_endpoint forward i ep event_type
                                  event_data) (task_endpoints matched)).
  set (outcomes := imap (λ i ep, forward i ep event_type event_data)
                        (task_endpoints matched)).
  assert (successes results = successes outcomes) as Hsucc.
  { apply successes_imap_ext. intros i x. apply is_True_forward_to_endpoint. }
  assert (length results = pairs matched) as Hres.
  { unfold results. by rewrite length_imap. }
  pose proof (successes_le results) as Hle.
  assert (results ≠ []) as Hne.
  { intros Heq. rewrite Heq in Hres. rewrite He in Hlen. cbn [length] in *. lia. }
  destruct results as [|x results'] eqn:Hr; [done|]. rewrite <- Hr in *.
  cbn [gather fst snd stats set_stats events_received events_forwarded
       events_failed routes_processed].
  fold (successes results). rewrite Hsucc in *. rewrite Hres in *.
  repeat split; try done; try lia.
  rewrite He in Hlen. cbn [length] in Hlen. lia.
Qed.

(** The statement of C4 as it stands fails on a matching enabled route
    that has no endpoint: the route matches, and [routes_processed] stays
    as it was. *)
Lemma handle_event_route_without_endpoints :
  get_routes_for_event example_config "GUILD_MEMBER_ADD"
  = [ {| event_name := "GUILD_MEMBER_ADD"; endpoints := []; enabled := true |} ]
  ∧ routes_processed
      (stats (handle_event (λ _ _ _ _, Ret true)
                (EventRouter_start (EventRouter_init example_config))
                "GUILD_MEMBER_ADD" (PDict [])).2)
    = routes_processed (stats (EventRouter_start (EventRouter_init example_config)))
  ∧ routes_processed
      (stats (handle_event (λ _ _ _ _, Ret true)
                (EventRouter_start (EventRouter_init example_config))
                "GUILD_MEMBER_ADD" (PDict [])).2)
    ≠ routes_processed (stats (EventRouter_start (EventRouter_init example_config)))
      + 1.
Proof. split; [reflexivity|]. split; [reflexivity|]. discriminate. Qed.

(** Scenarios S2 and S3 of the specification on one event: the first
    endpoint answers 500, 500, 204 and the second 500 every time. *)
Example handle_event_retry_then_succeed_and_exhausted :
  let respond (task : nat) (attempt : Z) :=
    if (task =? 0)%nat && (attempt =? 2) then Response 204 else Response 500 in
  let router := EventRouter_start (EventRouter_init example_config) in
  stats (handle_event
           (forward_via (forwarder router) (λ _, example_now) respond)
           router "MESSAGE_CREATE" (PDict [("id", PStr "1")])).2
  = {| events_received := 1; events_forwarded := 1; events_failed := 1;
       routes_processed := 1 |}.
Proof. reflexivity. Qed.

(** ** The Gateway session *)

Section GatewayProperties.

Import Gateway.

Lemma eq_int_functional (v : pyval) (a b : Z) :
  eq_int v a = true → a ≠ b → eq_int v b = false.
Proof.
  unfold eq_int. destruct v as [|bit|z| | |]; try discriminate;
    intros H Hne; apply Z.eqb_eq in H; apply Z.eqb_neq; lia.
Qed.

Lemma get_Ret_dict (event : pyval) (k : string) (default v : pyval) :
  get event k default = Ret v → ∃ items, event = PDict items.
Proof. destruct event; try discriminate. eauto. Qed.

(** Running a coroutine: unfold the operations of [M] and compute. *)
Ltac run :=
  unfold mbind, mret, M_bind, M_ret, get_self, assign, emit, raise, lift, try;
  cbn.

Lemma send_payload_connected (self : GatewayClient) (payload : pyval) :
  websocket self ≠ None →
  _send_payload payload self = (Ret tt, self, [Send payload]).
Proof.
  intros Hws. unfold _send_payload. run.
  destruct (websocket self); [done|congruence].
Qed.

(** One pass of the heartbeat loop sends the heartbeat of the client it
    meets, or nothing; it goes on only after having sent. *)
Lemma heartbeat_pass_cases (self : GatewayClient) :
  (∃ ms, heartbeat_pass self
         = (Ret true, self,
            [Send (heartbeat_frame (last_sequence self)); Sleep (Interval ms)]))
  ∨ heartbeat_pass self
    = (Ret false, self, [Send (heartbeat_frame (last_sequence self))])
  ∨ heartbeat_pass self = (Ret false, self, []).
Proof.
  unfold heartbeat_pass, _send_payload, heartbeat_frame. run.
  destruct (running self); [|auto].
  destruct (websocket self); cbn; [|auto].
  destruct (heartbeat_interval self) as [ms|]; cbn; eauto.
Qed.

Lemma sent_heartbeat_passes (snapshots : list GatewayClient) :
  ∃ k : nat,
    sent (heartbeat_passes snapshots)
    = (λ c, heartbeat_frame (last_sequence c)) <$> take k snapshots.
Proof.
  induction snapshots as [|c later [k IH]]; [by exists 0%nat|].
  cbn [heartbeat_passes].
  destruct (heartbeat_pass_cases c) as [[ms ->] | [-> | ->]].
  - exists (S k). cbn. by rewrite IH.
  - by exists 1%nat.
  - by exists 0%nat.
Qed.

(** A pass that finds the client running, connected and with an interval
    sends the heartbeat of that client, sleeps the interval and goes on. *)
Lemma heartbeat_pass_live (self : GatewayClient) (ms : Z) :
  running self = true → websocket self ≠ None →
  heartbeat_interval self = Some ms →
  heartbeat_pass self
  = (Ret true, self,
     [Send (heartbeat_frame (last_sequence self)); Sleep (Interval ms)]).
Proof.
  intros Hrun Hws Hms.
  unfold heartbeat_pass, _send_payload, heartbeat_frame. run.
  rewrite Hrun. destruct (websocket self); [|congruence].
  cbn. by rewrite Hms.
Qed.

Lemma sent_heartbeat_passes_live (snapshots : list GatewayClient) :
  (∀ c, c ∈ snapshots →
     running c = true ∧ websocket c ≠ None ∧ heartbeat_interval c ≠ None) →
  sent (heartbeat_passes snapshots)
  = (λ c, heartbeat_frame (last_sequence c)) <$> snapshots.
Proof.
  induction snapshots as [|c later IH]; intros Hlive; [done|].
  destruct (Hlive c ltac:(apply list_elem_of_here)) as (Hrun & Hws & Hms).
  destruct (heartbeat_interval c) as [ms|] eqn:Hint; [|done].
  cbn [heartbeat_passes].
  rewrite (heartbeat_pass_live c ms Hrun Hws Hint). cbn.
  rewrite IH; [done|].
  intros c' Hc'. apply Hlive. by apply list_elem_of_further.
Qed.

(** C7. Every heartbeat frame the session sends has [op] 1 and a [d]
    equal to [last_sequence] at the moment the frame is built (null before
    the first dispatch).  The reply of [_handle_event] to a HEARTBEAT
    REQUEST is exactly that one frame, built from the client as the
    request finds it.  A pass of [_heartbeat_loop] that finds the client
    running, connected and with an interval sends exactly that frame and
    then sleeps the interval; so a loop whose passes all find the client
    so sends one heartbeat per pass, each with the [last_sequence] of its
    pass.  Whatever the passes find, the frames of the loop are the
    heartbeat frames of the first passes, in order, and nothing else. *)
Theorem heartbeat_carries_last_sequence (self : GatewayClient)
    (event opcode : pyval) (at_start : GatewayClient)
    (snapshots : list GatewayClient) :
  (get event "op" PNone = Ret opcode → eq_int opcode 1 = true →
   websocket self ≠ None →
   _handle_event event self
   = (Ret tt, self, [Send (PDict [("op", PInt 1); ("d", last_sequence self)])]))
  ∧ (∀ ms : Z,
       running self = true → websocket self ≠ None →
       heartbeat_interval self = Some ms →
       heartbeat_pass self
       = (Ret true, self,
          [Send (PDict [("op", PInt 1); ("d", last_sequence self)]);
           Sleep (Interval ms)]))
  ∧ (heartbeat_interval at_start ≠ None →
     (∀ c, c ∈ snapshots →
        running c = true ∧ websocket c ≠ None ∧ heartbeat_interval c ≠ None) →
     sent (_heartbeat_loop at_start snapshots)
     = (λ c, PDict [("op", PInt 1); ("d", last_sequence c)]) <$> snapshots)
  ∧ (∃ k : nat,
       sent (_heartbeat_loop at_start snapshots)
       = (λ c, PDict [("op", PInt 1); ("d", last_sequence c)])
           <$> take k snapshots)
  ∧ (∀ p, p ∈ sent (_heartbeat_loop at_start snapshots) →
       ∃ c, c ∈ snapshots ∧ p = PDict [("op", PInt 1); ("d", last_sequence c)]).
Proof.
  assert (∃ k : nat,
            sent (_heartbeat_loop at_start snapshots)
            = (λ c, heartbeat_frame (last_sequence c)) <$> take k snapshots)
    as [k Hk].
  { unfold _heartbeat_loop.
    destruct (heartbeat_interval at_start); [|by exists 0%nat].
    cbn [sent]. apply sent_heartbeat_passes. }
  split; [|split; [|split; [|split]]].
  - intros Hop Hone Hws.
    pose proof (eq_int_functional opcode 1 0 Hone ltac:(lia)) as Hzero.
    unfold _handle_event. run. rewrite Hop. cbn. rewrite Hzero, Hone.
    by rewrite send_payload_connected.
  - intros ms Hrun Hws Hms. by apply heartbeat_pass_live.
  - intros Hstart Hlive. unfold _heartbeat_loop.
    destruct (heartbeat_interval at_start); [|done].
    cbn [sent]. by apply sent_heartbeat_passes_live.
  - by exists k.
  - intros p Hp. rewrite Hk in Hp.
    apply list_elem_of_fmap in Hp as (c & -> & Hc).
    exists c. split; [|done]. by apply (subseteq_take k snapshots).
Qed.

Lemma heartbeat_carries_last_sequence_witness :
  _handle_event heartbeat_request running_client
  = (Ret tt, running_client, [Send (PDict [("op", PInt 1); ("d", PInt 10)])])
  ∧ heartbeat_pass running_client
    = (Ret true, running_client,
       [Send (PDict [("op", PInt 1); ("d", PInt 10)]);
        Sleep (Interval 41250)])
  ∧ sent (_heartbeat_loop running_client
            [set_last_sequence PNone running_client;
             running_client;
             set_last_sequence (PInt 99) running_client])
    = [PDict [("op", PInt 1); ("d", PNone)];
       PDict [("op", PInt 1); ("d", PInt 10)];
       PDict [("op", PInt 1); ("d", PInt 99)]].
Proof.
  destruct (heartbeat_carries_last_sequence running_client heartbeat_request
              (PInt 1) running_client
              [set_last_sequence PNone running_client;
               running_client;
               set_last_sequence (PInt 99) running_client])
    as (Hreply & Hpass & Hloop & _).
  split; [|split].
  - apply Hreply; [reflexivity|reflexivity|discriminate].
  - apply Hpass; [reflexivity|discriminate|reflexivity].
  - apply Hloop; [discriminate|].
    intros c Hc. repeat apply elem_of_cons in Hc as [->|Hc];
      [| | |by apply elem_of_nil in Hc];
      (split; [reflexivity|split; discriminate]).
Defined.

(** Scenario S6, and the heartbeat loop meeting three clients. *)
Example heartbeat_loop_follows_last_sequence :
  sent (_heartbeat_loop running_client
          [set_last_sequence PNone running_client; running_client;
           set_last_sequence (PInt 99) running_client])
  = [PDict [("op", PInt 1); ("d", PNone)];
     PDict [("op", PInt 1); ("d", PInt 10)];
     PDict [("op", PInt 1); ("d", PInt 99)]].
Proof. reflexivity. Qed.

(** C6 (as amended). On reaching the AUTHENTICATE stage with the socket
    connected, the session sends exactly one frame: RESUME, with [op] 6 and
    the token, [session_id] and [seq] equal to [last_sequence], when
    [session_id] is true in the Python sense (not null and not empty) and
    [last_sequence] is not null; otherwise IDENTIFY, with [op] 2 and the
    token, the intents and the properties. *)
Theorem authenticate_identify_or_resume (platform : string)
    (self : GatewayClient) (Hws : websocket self ≠ None) :
  authenticate platform self
  = (Ret tt, self,
     [Send (if truthy (session_id self) && negb (is_none (last_sequence self))
            then PDict [("op", PInt 6);
                        ("d", PDict [("token", PStr (token (config self)));
                                     ("session_id", session_id self);
                                     ("seq", last_sequence self)])]
            else PDict [("op", PInt 2);
                        ("d", PDict [("token", PStr (token (config self)));
                                     ("intents", PInt (intents (config self)));
                                     ("properties",
                                      PDict [("$os", PStr platform);
                                             ("$browser", PStr "discord-bridge");
                                             ("$device", PStr "discord-bridge")])])])]).
Proof.
  unfold authenticate. run.
  destruct (truthy (session_id self) && negb (is_none (last_sequence self))).
  - unfold _resume. run. by rewrite send_payload_connected.
  - unfold _identify. run. by rewrite send_payload_connected.
Qed.

Lemma authenticate_identify_or_resume_witness :
  sent (trace (authenticate "linux" running_client))
  = [resume_frame example_discord (PStr "s1") (PInt 10)].
Proof.
  rewrite (authenticate_identify_or_resume "linux" running_client).
  - reflexivity.
  - discriminate.
Defined.

(** The statement of C6 as it stands fails on an empty [session_id]: it is
    not null, [last_sequence] is not null, and the frame is IDENTIFY. *)
Lemma authenticate_empty_session_id_identifies :
  is_none (session_id (set_session_id (PStr "") running_client)) = false
  ∧ is_none (last_sequence (set_session_id (PStr "") running_client)) = false
  ∧ sent (trace (authenticate "linux" (set_session_id (PStr "") running_client)))
    = [identify_frame "linux" example_discord]
  ∧ sent (trace (authenticate "linux" (set_session_id (PStr "") running_client)))
    ≠ [resume_frame example_discord (PStr "") (PInt 10)].
Proof. repeat split; try reflexivity. discriminate. Qed.

Example authenticate_after_clearing_identifies :
  sent (trace (authenticate "linux"
                 (set_last_sequence PNone (set_session_id PNone running_client))))
  = [identify_frame "linux" example_discord].
Proof. reflexivity. Qed.

(** What the dispatch branch of [_handle_event] leaves in [last_sequence]. *)
Lemma handle_event_dispatch_client (self : GatewayClient)
    (event opcode s : pyval) :
  get event "op" PNone = Ret opcode → eq_int opcode 0 = true →
  get event "s" PNone = Ret s →
  last_sequence (client (_handle_event event self)) = s.
Proof.
  intros Hop Hzero Hs.
  destruct (get_Ret_dict _ _ _ _ Hop) as [items ->].
  unfold _handle_event, client. run. cbn in Hop, Hs.
  destruct (lookup "op" items) as [op|];
    injection Hop as Hop; subst opcode; [|discriminate Hzero].
  cbn; rewrite Hzero;
    (destruct (lookup "s" items) as [s'|]; injection Hs as Hs; subst s; cbn);
    (destruct (lookup "t" items) as [t|]; cbn);
    (destruct (lookup "d" items) as [d|]; cbn);
    repeat match goal with
           | |- context [eq_str ?t "READY"] => destruct (eq_str t "READY"); cbn
           | |- context [get ?d ?k ?v] => destruct (get d k v); cbn
           | |- context [event_handler ?c] => destruct (event_handler c); cbn
           | |- context [truthy ?t] => destruct (truthy t); cbn
           | |- context [match ?h ?a ?b with Ret _ => _ | Raise _ => _ end] =>
               destruct (h a b); cbn
           end;
    reflexivity.
Qed.

(** C1 (as amended). A dispatch frame (op 0) handled by [_handle_event]
    leaves in [last_sequence] the [s] field of the frame (null when the
    frame has none), whatever it was before; so [last_sequence] does not
    decrease over a frame exactly when the frame's [s] is not below the
    value before it. *)
Theorem dispatch_sets_last_sequence (self : GatewayClient)
    (event opcode s : pyval)
    (Hop : get event "op" PNone = Ret opcode)
    (Hdispatch : eq_int opcode 0 = true)
    (Hs : get event "s" PNone = Ret s) :
  last_sequence (client (_handle_event event self)) = s
  ∧ seq_le (last_sequence self)
           (last_sequence (client (_handle_event event self)))
    = seq_le (last_sequence self) s.
Proof.
  pose proof (handle_event_dispatch_client self event opcode s Hop Hdispatch Hs)
    as H.
  split; [exact H | by rewrite H].
Qed.

Lemma dispatch_sets_last_sequence_witness :
  last_sequence (client (_handle_event (dispatch 42 "MESSAGE_CREATE") running_client))
  = PInt 42.
Proof.
  apply (dispatch_sets_last_sequence running_client
           (dispatch 42 "MESSAGE_CREATE") (PInt 0) (PInt 42)); reflexivity.
Defined.

(** The statement of C1 as it stands fails when a dispatch carries a
    smaller sequence number than the one before: after frames with [s] 10
    and then 3, [last_sequence] is 3. *)
Lemma last_sequence_can_decrease :
  last_sequence
    (client (_handle_event (dispatch 10 "MESSAGE_CREATE") running_client))
  = PInt 10
  ∧ last_sequence
      (client (_handle_event (dispatch 3 "MESSAGE_CREATE")
                 (client (_handle_event (dispatch 10 "MESSAGE_CREATE")
                            running_client))))
    = PInt 3
  ∧ seq_le
      (last_sequence
         (client (_handle_event (dispatch 10 "MESSAGE_CREATE") running_client)))
      (last_sequence
         (client (_handle_event (dispatch 3 "MESSAGE_CREATE")
                    (client (_handle_event (dispatch 10 "MESSAGE_CREATE")
                               running_client)))))
    = false.
Proof. repeat split; reflexivity. Qed.

(** An INVALID SESSION frame that is not resumable: the fields are
    cleared, the handler sleeps, and returns as after any other frame. *)
Lemma handle_event_invalid_session (self : GatewayClient) (event d : pyval) :
  get event "op" PNone = Ret (PInt 9) →
  get event "d" (PBool false) = Ret d → truthy d = false →
  _handle_event event self
  = (Ret tt, set_last_sequence PNone (set_session_id PNone self),
     [Sleep (Seconds 5)]).
Proof.
  intros Hop Hd Hfalse. unfold _handle_event. run.
  rewrite Hop. cbn. rewrite Hd. cbn. by rewrite Hfalse.
Qed.

(** C2, on the code: a first connection receives HELLO, READY, then
    INVALID SESSION with [d] false, then a HEARTBEAT REQUEST; a second
    connection stands ready. The session clears [session_id] and
    [last_sequence] and sleeps five seconds, but it does not close the
    connection: it answers the heartbeat request on the same socket and
    goes on waiting there. No second connection is opened and no IDENTIFY
    follows the invalid session. *)
Theorem invalid_session_keeps_connection :
  connect "linux"
    [Opened [Recv hello; Recv (ready 1 "s1"); Recv (invalid_session false);
             Recv heartbeat_request];
     Opened [Recv hello]]
    (GatewayClient_init example_discord)
  = (Ret Awaiting,
     {| config := example_discord;
        websocket := Some (WebSocketTo (PStr GATEWAY_URL));
        session_id := PNone; resume_gateway_url := PNone;
        last_sequence := PNone; heartbeat_interval := Some 41250;
        heartbeat_task := true; running := true; event_handler := None |},
     [Connect (PStr GATEWAY_URL); CreateHeartbeatTask;
      Send (identify_frame "linux" example_discord);
      Sleep (Seconds 5);
      Send (heartbeat_frame PNone)]).
Proof. reflexivity. Qed.

(** The sibling path: a RECONNECT frame (op 7) does leave the connection,
    and the next one is opened and resumed. *)
Example reconnect_frame_opens_next_connection :
  trace (connect "linux"
           [Opened [Recv hello; Recv (ready 1 "s1"); Recv (PDict [("op", PInt 7)]);
                    Recv heartbeat_request];
            Opened [Recv hello]]
           (GatewayClient_init example_discord))
  = [Connect (PStr GATEWAY_URL); CreateHeartbeatTask;
     Send (identify_frame "linux" example_discord);
     Connect (PStr GATEWAY_URL); CreateHeartbeatTask;
     Send (resume_frame example_discord (PStr "s1") (PInt 1))].
Proof. reflexivity. Qed.

(** C3 (as amended). HELLO is checked where a connection starts: when the
    first frame after the socket opens has another opcode,
    [_connect_and_run] raises and nothing is sent on that connection. An
    op 10 frame received later, in the RUNNING state, is ignored by
    [_handle_event]: it returns normally, the client is unchanged, nothing
    is sent and the connection stays open. *)
Theorem hello_checked_at_connection_start (platform : string)
    (self : GatewayClient) (first op1 : pyval) (later : list ws_item)
    (event op2 : pyval) :
  (subscript first "op" = Ret op1 → eq_int op1 10 = false →
   result (_connect_and_run platform (Recv first :: later) self)
   = Raise (Exception "Expected HELLO event")
   ∧ sent (trace (_connect_and_run platform (Recv first :: later) self)) = [])
  ∧ (get event "op" PNone = Ret op2 → eq_int op2 10 = true →
     _handle_event event self = (Ret tt, self, [])).
Proof.
  split.
  - intros Hop Hne. unfold _connect_and_run, _receive_event, result, trace. run.
    rewrite Hop. cbn. by rewrite Hne.
  - intros Hop Hten. unfold _handle_event. run. rewrite Hop. cbn.
    rewrite (eq_int_functional op2 10 0), (eq_int_functional op2 10 1),
      (eq_int_functional op2 10 7), (eq_int_functional op2 10 9) by (done || lia).
    by destruct (eq_int op2 11).
Qed.

Lemma hello_checked_at_connection_start_witness :
  result (_connect_and_run "linux" [Recv heartbeat_request]
            (GatewayClient_init example_discord))
  = Raise (Exception "Expected HELLO event")
  ∧ _handle_event hello running_client = (Ret tt, running_client, []).
Proof.
  destruct (hello_checked_at_connection_start "linux"
              (GatewayClient_init example_discord) heartbeat_request (PInt 1)
              [] hello (PInt 10)) as [Hfirst Hlater].
  destruct (hello_checked_at_connection_start "linux" running_client
              heartbeat_request (PInt 1) [] hello (PInt 10)) as [_ Hrunning].
  split.
  - apply Hfirst; reflexivity.
  - apply Hrunning; reflexivity.
Defined.

(** The statement of C3 as it stands fails: an op 10 frame in the RUNNING
    state does not end the event loop, which goes on to wait for the next
    frame on the same connection. *)
Lemma hello_in_running_is_ignored :
  get hello "op" PNone = Ret (PInt 10)
  ∧ _handle_event hello running_client = (Ret tt, running_client, [])
  ∧ _event_loop [Recv hello; Recv heartbeat_request] running_client
    = (Ret Awaiting, running_client, [Send (heartbeat_frame (PInt 10))])
  ∧ result (_event_loop [Recv hello; Recv heartbeat_request] running_client)
    ≠ Ret Broke.
Proof. repeat split; try reflexivity. discriminate. Qed.

(** A connection whose first frame is not HELLO is abandoned; after five
    seconds the next one is opened. *)
Example connect_retries_after_missing_hello :
  trace (connect "linux" [Opened [Recv heartbeat_request]; Opened [Recv hello]]
           (GatewayClient_init example_discord))
  = [Connect (PStr GATEWAY_URL); Sleep (Seconds 5);
     Connect (PStr GATEWAY_URL); CreateHeartbeatTask;
     Send (identify_frame "linux" example_discord)].
Proof. reflexivity. Qed.

End GatewayProperties.

(** * Further properties of the code *)

(** ** The forwarder, whatever the endpoint does *)

Section ForwarderOutcomes.

Variable cfg : HTTPConfig.
Variable req : request.
Variable respond : Z → http_outcome.

(** One iteration that fails hands over to the rest of the loop. *)
Lemma attempts_step_failed (remaining : nat) (attempt : Z) :
  failed (respond attempt) = true →
  attempts cfg req respond (S remaining) attempt
  = after_failure cfg req attempt
      (attempts cfg req respond remaining (attempt + 1)).
Proof.
  intros Hf. simpl. destruct (respond attempt) as [status| | |]; try done.
  simpl in Hf. apply Z.leb_le in Hf.
  destruct (status <? 400) eqn:Hs; [apply Z.ltb_lt in Hs; lia | done].
Qed.

Lemma attempts_step_ok (remaining : nat) (attempt : Z) :
  failed (respond attempt) = false →
  attempts cfg req respond (S remaining) attempt = (true, [Post req]).
Proof.
  intros Hf. simpl. destruct (respond attempt) as [status| | |]; try done.
  simpl in Hf. apply Z.leb_gt in Hf.
  by rewrite (proj2 (Z.ltb_lt _ _)) by lia.
Qed.

Lemma attempts_true_iff (remaining : nat) : ∀ attempt : Z,
  (attempts cfg req respond remaining attempt).1 = true
  ↔ ∃ k, attempt <= k < attempt + Z.of_nat remaining
         ∧ failed (respond k) = false.
Proof.
  induction remaining as [|remaining IH]; intros attempt.
  - simpl. split; [done|]. intros (k & Hk & _). lia.
  - destruct (failed (respond attempt)) eqn:Hf.
    + rewrite attempts_step_failed by done. unfold after_failure. cbn [fst].
      rewrite IH. split; intros (k & Hk & Hok).
      * exists k. split; [lia|done].
      * exists k. split; [|done].
        assert (k ≠ attempt) by (intros ->; congruence). lia.
    + rewrite attempts_step_ok by done. split; [|done]. intros _.
      exists attempt. split; [lia|done].
Qed.

(** The two ways the loop can go: every attempt fails, or some attempt is
    the first to succeed. *)
Lemma attempts_outcomes (remaining : nat) : ∀ attempt : Z,
  attempt + Z.of_nat remaining = retry_attempts cfg →
  attempts cfg req respond remaining attempt
  = (false, posts_with_sleeps req (retry_delay cfg) remaining)
  ∨ ∃ k : nat, (k < remaining)%nat
      ∧ attempts cfg req respond remaining attempt
        = (true, failed_attempts req (retry_delay cfg) k ++ [Post req]).
Proof.
  induction remaining as [|remaining IH]; intros attempt Hn; [by left|].
  destruct (failed (respond attempt)) eqn:Hf.
  - rewrite attempts_step_failed by done.
    destruct (IH (attempt + 1) ltac:(lia)) as [-> | (k & Hk & ->)].
    + left. unfold after_failure. cbn [fst snd]. f_equal.
      destruct remaining as [|remaining].
      * rewrite (proj2 (Z.ltb_ge _ _)) by lia. done.
      * rewrite (proj2 (Z.ltb_lt _ _)) by lia. done.
    + right. exists (S k). split; [lia|].
      unfold after_failure. cbn [fst snd].
      rewrite (proj2 (Z.ltb_lt _ _)) by lia. done.
  - right. exists 0%nat. split; [lia|]. by rewrite attempts_step_ok.
Qed.

Lemma slept_posts_with_sleeps (delay : Z) (n : nat) :
  slept (posts_with_sleeps req delay n) = delay * (Z.of_nat n - 1)
  ∨ n = 0%nat.
Proof.
  induction n as [|n IH]; [by right|]. left.
  destruct n as [|n]; [simpl; lia|].
  change (posts_with_sleeps req delay (S (S n)))
    with (Post req :: Sleep delay :: posts_with_sleeps req delay (S n)).
  cbn [slept]. destruct IH as [-> | ?]; lia.
Qed.

Lemma slept_failed_attempts (delay : Z) (k : nat) (rest : list effect) :
  slept (failed_attempts req delay k ++ rest) = delay * Z.of_nat k + slept rest.
Proof.
  induction k as [|k IH]; [simpl; lia|].
  cbn [failed_attempts app slept]. rewrite IH. lia.
Qed.

End ForwarderOutcomes.

(** X1. With the session started, [forward_event] returns true exactly
    when some attempt within the budget, numbered from 0 and below
    [retry_attempts], gets a response with a status below 400. *)
Theorem forward_event_true_iff (self : HTTPForwarder) (now : datetime)
    (respond : Z → http_outcome) (endpoint event_type : string)
    (event_data : pyval)
    (Hsession : session self ≠ None) :
  (forward_event self now respond endpoint event_type event_data).1.1 = true
  ↔ ∃ k, 0 <= k < retry_attempts (http (fw_config self))
         ∧ failed (respond k) = false.
Proof.
  unfold forward_event. destruct (session self) as [sess|]; [|done].
  destruct (attempts _ _ _ _ _) as [ok done] eqn:Hat. cbn [fst].
  change ok with (ok, done).1. rewrite <- Hat, attempts_true_iff.
  split; intros (k & Hk & Hok); exists k; (split; [lia|done]).
Qed.

Lemma forward_event_true_iff_witness :
  (forward_event example_forwarder example_now
     (λ k, if k =? 2 then Response 204 else Response 500)
     "https://example.com/messages" "MESSAGE_CREATE" (PDict [])).1.1 = true.
Proof.
  apply (forward_event_true_iff example_forwarder example_now
           (λ k, if k =? 2 then Response 204 else Response 500)).
  - discriminate.
  - exists 2. split; [simpl; lia | reflexivity].
Defined.

(** X2. With the session started and [retry_attempts] zero or negative,
    [forward_event] makes no request and no sleep, and returns false. *)
Theorem forward_event_no_budget (self : HTTPForwarder) (now : datetime)
    (respond : Z → http_outcome) (endpoint event_type : string)
    (event_data : pyval)
    (Hsession : session self ≠ None)
    (Hbudget : retry_attempts (http (fw_config self)) <= 0) :
  forward_event self now respond endpoint event_type event_data
  = (false, self, []).
Proof.
  unfold forward_event. destruct (session self) as [sess|]; [|done].
  by rewrite Z2Nat.nonpos by done.
Qed.

Lemma forward_event_no_budget_witness :
  forward_event
    (HTTPForwarder_start
       (HTTPForwarder_init
          {| discord := example_discord;
             http := {| timeout := 30; retry_attempts := 0; retry_delay := 1 |};
             routes := [] |}))
    example_now (λ _, Response 204) "https://example.com/messages"
    "MESSAGE_CREATE" (PDict [])
  = (false,
     HTTPForwarder_start
       (HTTPForwarder_init
          {| discord := example_discord;
             http := {| timeout := 30; retry_attempts := 0; retry_delay := 1 |};
             routes := [] |}),
     []).
Proof.
  apply forward_event_no_budget.
  - discriminate.
  - simpl. lia.
Defined.

(** X3. With the session started, at least one attempt allowed and a
    delay that is not negative, whatever the endpoint answers:
    [forward_event] makes between 1 and [retry_attempts] POSTs, all of the
    same request, sleeps [retry_delay] once less often than it posts, and
    so never sleeps more than [retry_delay * (retry_attempts - 1)] seconds
    in all. *)
Theorem forward_event_bounds (self : HTTPForwarder) (now : datetime)
    (respond : Z → http_outcome) (endpoint event_type : string)
    (event_data : pyval)
    (Hsession : session self ≠ None)
    (Hbudget : 1 <= retry_attempts (http (fw_config self)))
    (Hdelay : 0 <= retry_delay (http (fw_config self))) :
  let n := retry_attempts (http (fw_config self)) in
  let delay := retry_delay (http (fw_config self)) in
  let done := (forward_event self now respond endpoint event_type event_data).2 in
  1 <= Z.of_nat (posts done) <= n
  ∧ slept done = delay * (Z.of_nat (posts done) - 1)
  ∧ slept done <= delay * (n - 1)
  ∧ (∀ e, e ∈ done →
       e = Sleep delay
       ∨ e = Post {| url := endpoint;
                     json := payload event_type event_data now;
                     headers := request_headers |}).
Proof.
  intros n delay done. subst done. unfold forward_event.
  destruct (session self) as [sess|]; [|done].
  set (req := {| url := endpoint; json := payload event_type event_data now;
                 headers := request_headers |}).
  cbv zeta. fold req.
  pose proof (attempts_outcomes (http (fw_config self)) req respond
                (Z.to_nat n) 0 ltac:(fold n; lia)) as Hout.
  fold n. fold delay in Hout.
  destruct Hout as [-> | (k & Hk & ->)]; cbn [snd].
  - rewrite posts_posts_with_sleeps.
    destruct (slept_posts_with_sleeps req delay (Z.to_nat n)) as [-> | Hz];
      [|lia].
    rewrite Z2Nat.id by lia. repeat split; try lia.
    intros e He. clear -He. revert He.
    induction (Z.to_nat n) as [|m IH]; [by intros ?%elem_of_nil|].
    destruct m as [|m].
    + intros ->%list_elem_of_singleton. by right.
    + change (posts_with_sleeps req delay (S (S m)))
        with (Post req :: Sleep delay :: posts_with_sleeps req delay (S m)).
      rewrite !elem_of_cons. intros [-> | [-> | He]]; auto.
  - rewrite posts_failed_attempts, slept_failed_attempts.
    assert (posts [Post req] = 1%nat) as -> by done.
    cbn [slept]. repeat split; try nia.
    intros e He. apply elem_of_app in He as [He | ->%list_elem_of_singleton];
      [|by right].
    clear -He. induction k as [|k IH]; [by apply elem_of_nil in He|].
    cbn [failed_attempts] in He. rewrite !elem_of_cons in He.
    destruct He as [-> | [-> | He]]; auto.
Qed.

Lemma forward_event_bounds_witness :
  slept (forward_event example_forwarder example_now (λ _, TimeoutError)
           "https://example.com/messages" "MESSAGE_CREATE" (PDict [])).2
  <= 1 * (3 - 1).
Proof.
  destruct (forward_event_bounds example_forwarder example_now
              (λ _, TimeoutError) "https://example.com/messages"
              "MESSAGE_CREATE" (PDict [])) as (_ & _ & Hslept & _).
  - discriminate.
  - simpl. lia.
  - simpl. lia.
  - exact Hslept.
Defined.

(** ** The router over one call and over many *)

Lemma handle_event_result
    (forward : nat → string → string → pyval → res bool)
    (self : EventRouter) (event_type : string) (event_data : pyval) :
  handle_event forward self event_type event_data
  = (Ret tt,
     set_stats self
       (stats_after (stats self)
          (pairs (get_routes_for_event (Router.config self) event_type))
          (successes
             (imap (λ i endpoint, forward i endpoint event_type event_data)
                (task_endpoints
                   (get_routes_for_event (Router.config self) event_type)))))).
Proof.
  unfold handle_event, stats_after.
  set (matched := get_routes_for_event (Router.config self) event_type).
  pose proof (length_task_endpoints matched) as Hlen.
  destruct matched as [|r rs] eqn:Hm.
  { by rewrite decide_True by done. }
  rewrite <- Hm in *. clear Hm.
  destruct (task_endpoints matched) as [|endpoint eps] eqn:He.
  { cbn [imap]. cbn [length] in Hlen. by rewrite decide_True by done. }
  rewrite <- He in *.
  set (results := imap (λ i ep, _forward_to_endpoint forward i ep event_type
                                  event_data) (task_endpoints matched)).
  assert (successes results
          = successes (imap (λ i ep, forward i ep event_type event_data)
                         (task_endpoints matched))) as Hsucc.
  { apply successes_imap_ext. intros i x.
    apply is_True_forward_to_endpoint. }
  assert (length results = pairs matched) as Hres.
  { unfold results. by rewrite length_imap. }
  assert (pairs matched ≠ 0%nat) as Hne.
  { rewrite <- Hlen, He. done. }
  destruct results as [|x results'] eqn:Hr.
  { cbn [length] in Hres. congruence. }
  rewrite <- Hr in *. cbn [gather]. fold (successes results).
  rewrite Hsucc, Hres, decide_False by done. done.
Qed.

Lemma successes_bound (results : list (res bool)) :
  0 <= Z.of_nat (successes results) <= Z.of_nat (length results).
Proof. pose proof (successes_le results). lia. Qed.

(** X4. A call of [handle_event] leaves the router's configuration and
    forwarder as they were, and no counter decreases over it. *)
Theorem handle_event_keeps_router
    (forward : nat → string → string → pyval → res bool)
    (self : EventRouter) (event_type : string) (event_data : pyval) :
  Router.config (handle_event forward self event_type event_data).2
  = Router.config self
  ∧ forwarder (handle_event forward self event_type event_data).2
    = forwarder self
  ∧ events_received (stats self)
    <= events_received (stats (handle_event forward self event_type event_data).2)
  ∧ events_forwarded (stats self)
    <= events_forwarded (stats (handle_event forward self event_type event_data).2)
  ∧ events_failed (stats self)
    <= events_failed (stats (handle_event forward self event_type event_data).2)
  ∧ routes_processed (stats self)
    <= routes_processed (stats (handle_event forward self event_type event_data).2).
Proof.
  rewrite handle_event_result. cbn [snd set_stats Router.config forwarder stats].
  set (matched := get_routes_for_event (Router.config self) event_type).
  set (outcomes := imap _ _).
  pose proof (successes_bound outcomes) as Hb.
  assert (length outcomes = pairs matched) as Hlen.
  { unfold outcomes. by rewrite length_imap, length_task_endpoints. }
  rewrite Hlen in Hb. unfold stats_after.
  destruct (decide (pairs matched = 0%nat));
    cbn [events_received events_forwarded events_failed routes_processed];
    repeat split; lia.
Qed.

Lemma handle_events_tally (calls : list call) : ∀ self : EventRouter,
  let after := handle_events calls self in
  Router.config after = Router.config self
  ∧ forwarder after = forwarder self
  ∧ events_received (stats after)
    = events_received (stats self) + Z.of_nat (length calls)
  ∧ events_forwarded (stats after) + events_failed (stats after)
    = events_forwarded (stats self) + events_failed (stats self)
      + Z.of_nat (sum_list (call_pairs (Router.config self) <$> calls))
  ∧ routes_processed (stats after)
    = routes_processed (stats self)
      + Z.of_nat (calls_with_pairs (Router.config self) calls).
Proof.
  induction calls as [|c later IH]; intros self after.
  { subst after. cbn. repeat split; lia. }
  subst after. cbn [handle_events].
  specialize (IH (handle_event (call_forward c) self (call_event_type c)
                    (call_event_data c)).2).
  cbv zeta in IH. rewrite handle_event_result in IH |- *.
  cbn [snd set_stats Router.config forwarder stats] in IH |- *.
  destruct IH as (Hcfg & Hfw & Hrecv & Hsum & Hrp).
  rewrite Hcfg, Hfw, Hrecv, Hsum, Hrp. clear Hcfg Hfw Hrecv Hsum Hrp.
  unfold calls_with_pairs. rewrite filter_cons.
  cbn [fmap list_fmap sum_list sum_list_with length].
  set (outcomes := imap _ _).
  pose proof (successes_bound outcomes) as Hb.
  assert (length outcomes
          = pairs (get_routes_for_event (Router.config self) (call_event_type c)))
    as Hlen.
  { unfold outcomes. by rewrite length_imap, length_task_endpoints. }
  rewrite Hlen in Hb. clear Hlen.
  fold (call_pairs (Router.config self) c) in Hb |- *.
  set (n := call_pairs (Router.config self) c) in *.
  unfold stats_after, id.
  destruct (decide (n = 0%nat)) as [Hz|Hnz].
  - rewrite (decide_False (P := n ≠ 0%nat)) by lia.
    cbn [events_received events_forwarded events_failed routes_processed].
    repeat split; lia.
  - rewrite (decide_True (P := n ≠ 0%nat)) by lia.
    cbn [events_received events_forwarded events_failed routes_processed length].
    repeat split; lia.
Qed.

(** X5. After [reset_stats], a series of calls of [handle_event] leaves
    [events_received] at the number of calls, [events_forwarded] plus
    [events_failed] at the number of (route, endpoint) pairs summed over
    the calls, and [routes_processed] at the number of calls that had at
    least one pair; whatever the forward tasks did. *)
Theorem handle_events_after_reset (calls : list call) (self : EventRouter) :
  let after := handle_events calls (reset_stats self) in
  events_received (get_stats after) = Z.of_nat (length calls)
  ∧ events_forwarded (get_stats after) + events_failed (get_stats after)
    = Z.of_nat (sum_list (call_pairs (Router.config self) <$> calls))
  ∧ routes_processed (get_stats after)
    = Z.of_nat (calls_with_pairs (Router.config self) calls)
  ∧ routes_processed (get_stats after) <= events_received (get_stats after).
Proof.
  intros after. subst after. unfold get_stats.
  destruct (handle_events_tally calls (reset_stats self))
    as (_ & _ & Hrecv & Hsum & Hrp).
  cbn [reset_stats set_stats stats Router.config zero_stats events_received
       events_forwarded events_failed routes_processed] in Hrecv, Hsum, Hrp.
  rewrite Hrecv, Hsum, Hrp. repeat split; try lia.
  unfold calls_with_pairs.
  pose proof (length_filter (λ c, call_pairs (Router.config self) c ≠ 0%nat)
                calls). lia.
Qed.

(** X6. [handle_event] reaches only the endpoints of enabled routes with
    the event's name: each endpoint it hands to a forward task belongs to
    such a route, and two behaviours of the forward tasks that agree on
    those endpoints give the same result and the same router. *)
Theorem handle_event_reaches_only_matching_routes
    (forward1 forward2 : nat → string → string → pyval → res bool)
    (self : EventRouter) (event_type : string) (event_data : pyval) :
  (∀ endpoint,
     endpoint ∈ task_endpoints (get_routes_for_event (Router.config self) event_type) →
     ∃ route, route ∈ routes (Router.config self)
              ∧ event_name route = event_type ∧ enabled route = true
              ∧ endpoint ∈ endpoints route)
  ∧ ((∀ i endpoint,
        endpoint ∈ task_endpoints
                     (get_routes_for_event (Router.config self) event_type) →
        forward1 i endpoint event_type event_data
        = forward2 i endpoint event_type event_data) →
     handle_event forward1 self event_type event_data
     = handle_event forward2 self event_type event_data).
Proof.
  split.
  - intros endpoint Hin.
    assert (∃ route, route ∈ get_routes_for_event (Router.config self) event_type
                     ∧ endpoint ∈ endpoints route) as (route & Hr & He).
    { revert Hin.
      induction (get_routes_for_event (Router.config self) event_type)
        as [|r rs IH]; cbn [task_endpoints].
      - by intros ?%elem_of_nil.
      - rewrite elem_of_app. intros [Hin | Hin].
        + exists r. split; [apply list_elem_of_here | done].
        + destruct (IH Hin) as (route & Hr & He).
          exists route. split; [by apply list_elem_of_further | done]. }
    apply routes_comprehension_elem in Hr as (Hr & Hn & Hen). eauto.
  - intros Hagree. rewrite !handle_event_result. do 4 f_equal.
    apply imap_ext. intros i endpoint Hi. apply Hagree.
    by eapply list_elem_of_lookup_2.
Qed.

Lemma handle_event_reaches_only_matching_routes_witness :
  handle_event (λ _ endpoint _ _,
                  Ret (String.eqb endpoint "https://example.com/messages"))
    (EventRouter_start (EventRouter_init example_config)) "MESSAGE_CREATE"
    (PDict [])
  = handle_event (λ _ endpoint _ _,
                    if String.eqb endpoint "https://disabled.com/messages"
                    then Raise ConnectionClosed
                    else Ret (String.eqb endpoint "https://example.com/messages"))
      (EventRouter_start (EventRouter_init example_config)) "MESSAGE_CREATE"
      (PDict []).
Proof.
  apply (handle_event_reaches_only_matching_routes
           (λ _ endpoint _ _,
              Ret (String.eqb endpoint "https://example.com/messages"))
           (λ _ endpoint _ _,
              if String.eqb endpoint "https://disabled.com/messages"
              then Raise ConnectionClosed
              else Ret (String.eqb endpoint "https://example.com/messages"))).
  intros i endpoint Hin. cbn in Hin.
  apply elem_of_cons in Hin as [-> | Hin]; [reflexivity|].
  apply list_elem_of_singleton in Hin as ->. reflexivity.
Defined.

(** X7. While the router's forwarder has no HTTP session (before [start]),
    a call of [handle_event] through it counts every (route, endpoint)
    pair as failed and none as forwarded. *)
Theorem handle_event_before_start (self : EventRouter) (now : nat → datetime)
    (respond : nat → Z → http_outcome) (event_type : string)
    (event_data : pyval)
    (Hnone : session (forwarder self) = None) :
  let after :=
    (handle_event (forward_via (forwarder self) now respond) self event_type
       event_data).2 in
  events_forwarded (stats after) = events_forwarded (stats self)
  ∧ events_failed (stats after)
    = events_failed (stats self)
      + Z.of_nat (pairs (get_routes_for_event (Router.config self) event_type)).
Proof.
  intros after. subst after. rewrite handle_event_result.
  cbn [snd set_stats stats].
  set (matched := get_routes_for_event (Router.config self) event_type).
  assert (successes
            (imap (λ i endpoint,
                     forward_via (forwarder self) now respond i endpoint
                       event_type event_data) (task_endpoints matched))
          = 0%nat) as ->.
  { unfold successes. generalize (task_endpoints matched). intros l.
    assert (∀ (f : nat → string → res bool),
              (∀ i x, f i x = Ret false) →
              length (filter (λ r, is_True r = true) (imap f l)) = 0%nat) as H.
    { induction l as [|x l IH]; intros f Hf; [done|].
      rewrite imap_cons, filter_cons, Hf. cbn. apply IH.
      intros i y. apply Hf. }
    apply H. intros i x. unfold forward_via, forward_event.
    by rewrite Hnone. }
  unfold stats_after. destruct (decide (pairs matched = 0%nat)) as [Hz|Hnz];
    cbn [events_forwarded events_failed]; split; lia.
Qed.

Lemma handle_event_before_start_witness :
  events_failed
    (stats (handle_event
              (forward_via (forwarder (EventRouter_init example_config))
                 (λ _, example_now) (λ _ _, Response 204))
              (EventRouter_init example_config) "MESSAGE_CREATE" (PDict [])).2)
  = 0 + Z.of_nat 2.
Proof.
  apply (handle_event_before_start (EventRouter_init example_config)
           (λ _, example_now) (λ _ _, Response 204) "MESSAGE_CREATE" (PDict [])).
  reflexivity.
Defined.

(** ** The session: what a frame can and cannot do *)

Section SessionFrames.

Import Gateway.

Ltac step :=
  unfold mbind, mret, M_bind, M_ret, get_self, assign, emit, raise, lift, try;
  cbn.

(** Case analysis over the branches of the dispatch arm. *)
Ltac dispatch_cases :=
  repeat match goal with
         | |- context [eq_str ?t "READY"] => destruct (eq_str t "READY"); cbn
         | |- context [get ?d ?k ?v] => destruct (get d k v); cbn
         | |- context [truthy ?t] => destruct (truthy t); cbn
         | |- context [match ?h ?a ?b with Ret _ => _ | Raise _ => _ end] =>
             destruct (h a b); cbn
         end.

(** X8. A dispatch frame (op 0) whose event is not READY, or whose data
    is an object: [_handle_event] returns normally whatever the registered
    handler does (return or raise), sends nothing, and calls the handler
    exactly once, with the event name and the data, when a handler is
    registered and the event name is true in the Python sense; otherwise
    it does not call it. *)
Theorem dispatch_isolates_handler (self : GatewayClient)
    (event opcode t d : pyval)
    (Hop : get event "op" PNone = Ret opcode)
    (Hdispatch : eq_int opcode 0 = true)
    (Ht : get event "t" PNone = Ret t)
    (Hd : get event "d" (PDict []) = Ret d)
    (Hdata : eq_str t "READY" = false ∨ is_dict d = true) :
  result (_handle_event event self) = Ret tt
  ∧ sent (trace (_handle_event event self)) = []
  ∧ handled (trace (_handle_event event self))
    = match event_handler self with
      | Some _ => if truthy t then [(t, d)] else []
      | None => []
      end.
Proof.
  destruct (get_Ret_dict _ _ _ _ Hop) as [items ->].
  unfold _handle_event, result, trace. step.
  cbn in Hop, Ht, Hd. rewrite Hop. cbn. rewrite Hdispatch.
  destruct (lookup "s" items) as [s|]; cbn; rewrite Ht; cbn; rewrite Hd; cbn.
  all: destruct (eq_str t "READY") eqn:Hready;
    [destruct Hdata as [? | Hdict]; [done|];
     destruct d; try discriminate Hdict; cbn;
     repeat match goal with
            | |- context [lookup ?k ?l] => destruct (lookup k l); cbn
            end
    | cbn].
  all: destruct (event_handler self) as [h|]; cbn; [|done].
  all: destruct (truthy t); cbn; [|done].
  all: done.
Qed.

Lemma dispatch_isolates_handler_witness :
  result (_handle_event (dispatch 42 "MESSAGE_CREATE")
            (on_event (λ _ _, Raise (Exception "RuntimeError")) running_client))
  = Ret tt
  ∧ handled (trace (_handle_event (dispatch 42 "MESSAGE_CREATE")
                      (on_event (λ _ _, Raise (Exception "RuntimeError"))
                         running_client)))
    = [(PStr "MESSAGE_CREATE", PDict [])].
Proof.
  destruct (dispatch_isolates_handler
              (on_event (λ _ _, Raise (Exception "RuntimeError")) running_client)
              (dispatch 42 "MESSAGE_CREATE") (PInt 0) (PStr "MESSAGE_CREATE")
              (PDict [])) as (Hres & _ & Hcalls); try reflexivity.
  - by left.
  - split; [exact Hres | exact Hcalls].
Defined.

(** X9. A READY dispatch whose data is an object records the session:
    afterwards [session_id] and [resume_gateway_url] are the fields of the
    data with those names (null when absent) and [last_sequence] is the
    frame's [s]; the other attributes of the client are as before. *)
Theorem ready_records_session (self : GatewayClient)
    (event opcode s t d sid url : pyval)
    (Hop : get event "op" PNone = Ret opcode)
    (Hdispatch : eq_int opcode 0 = true)
    (Hs : get event "s" PNone = Ret s)
    (Ht : get event "t" PNone = Ret t)
    (Hready : eq_str t "READY" = true)
    (Hd : get event "d" (PDict []) = Ret d)
    (Hsid : get d "session_id" PNone = Ret sid)
    (Hurl : get d "resume_gateway_url" PNone = Ret url) :
  client (_handle_event event self)
  = set_resume_gateway_url url (set_session_id sid (set_last_sequence s self)).
Proof.
  destruct (get_Ret_dict _ _ _ _ Hop) as [items ->].
  unfold _handle_event, client. step.
  cbn in Hop, Hs, Ht, Hd. rewrite Hop. cbn. rewrite Hdispatch, Hs. cbn.
  rewrite Ht. cbn. rewrite Hd. cbn. rewrite Hready, Hsid. cbn.
  rewrite Hurl. cbn.
  destruct (event_handler self) as [h|]; cbn; [|done].
  destruct (truthy t); cbn; [|done].
  by destruct (h t d).
Qed.

Lemma ready_records_session_witness :
  client (_handle_event (ready 1 "s1") (GatewayClient_init example_discord))
  = set_resume_gateway_url PNone
      (set_session_id (PStr "s1")
         (set_last_sequence (PInt 1) (GatewayClient_init example_discord))).
Proof.
  apply (ready_records_session (GatewayClient_init example_discord)
           (ready 1 "s1") (PInt 0) (PInt 1) (PStr "READY")
           (PDict [("session_id", PStr "s1")])); reflexivity.
Defined.

(** X10. A READY dispatch whose data is present and not an object (null,
    a number, a string, a list): [_handle_event] raises, with
    [last_sequence] already set to the frame's [s]; [session_id] and
    [resume_gateway_url] are not touched and the handler is not called. *)
Theorem ready_without_object_raises (self : GatewayClient)
    (event opcode s t d : pyval)
    (Hop : get event "op" PNone = Ret opcode)
    (Hdispatch : eq_int opcode 0 = true)
    (Hs : get event "s" PNone = Ret s)
    (Ht : get event "t" PNone = Ret t)
    (Hready : eq_str t "READY" = true)
    (Hd : get event "d" (PDict []) = Ret d)
    (Hdata : is_dict d = false) :
  _handle_event event self
  = (Raise (Exception "AttributeError"), set_last_sequence s self, []).
Proof.
  destruct (get_Ret_dict _ _ _ _ Hop) as [items ->].
  unfold _handle_event. step.
  cbn in Hop, Hs, Ht, Hd. rewrite Hop. cbn. rewrite Hdispatch, Hs. cbn.
  rewrite Ht. cbn. rewrite Hd. cbn. rewrite Hready.
  by destruct d.
Qed.

Lemma ready_without_object_raises_witness :
  _handle_event
    (PDict [("op", PInt 0); ("s", PInt 7); ("t", PStr "READY"); ("d", PNone)])
    running_client
  = (Raise (Exception "AttributeError"),
     set_last_sequence (PInt 7) running_client, []).
Proof.
  apply (ready_without_object_raises running_client
           (PDict [("op", PInt 0); ("s", PInt 7); ("t", PStr "READY");
                   ("d", PNone)])
           (PInt 0) (PInt 7) (PStr "READY") PNone); reflexivity.
Defined.

(** Nothing sent and the wiring kept. *)
Ltac quiet := split; [done | intros ? Hnil; by apply elem_of_nil in Hnil].

Lemma handle_event_wiring (self : GatewayClient) (event : pyval) :
  same_wiring (client (_handle_event event self)) self
  ∧ (∀ p, p ∈ sent (trace (_handle_event event self)) →
       p = PDict [("op", PInt 1); ("d", last_sequence self)]).
Proof.
  destruct self as [cfg ws sid url seq interval task run handler].
  destruct handler as [h|].
  all: unfold same_wiring, _handle_event, client, trace; step.
  all: destruct (get event "op" PNone) as [opcode|e] eqn:Hop; cbn;
    [|quiet].
  all: revert Hop.
  all: intros Hop; destruct (get_Ret_dict _ _ _ _ Hop) as [items ->]; cbn.
  all: destruct (eq_int opcode 0); cbn;
    [ destruct (lookup "s" items), (lookup "t" items) as [t|],
        (lookup "d" items) as [d|]; cbn; dispatch_cases; quiet |].
  all: destruct (eq_int opcode 1); cbn;
    [ unfold _send_payload; step; destruct ws; cbn;
      [ split; [done|]; intros q Hq; by apply list_elem_of_singleton in Hq
      | quiet ] |].
  all: destruct (eq_int opcode 7); cbn; [quiet|].
  all: destruct (eq_int opcode 9); cbn;
    [ destruct (lookup "d" items) as [d|]; cbn; [destruct (truthy d); cbn|];
      quiet |].
  all: destruct (eq_int opcode 11); cbn; quiet.
Qed.

(** X11. Whatever frame it is given, [_handle_event] leaves the client's
    configuration, socket, heartbeat interval, heartbeat task, [running]
    flag and registered handler as they were, and every frame it sends is
    the heartbeat carrying [last_sequence]: it never sends IDENTIFY,
    RESUME or anything else. *)
Theorem handle_event_keeps_wiring (self : GatewayClient) (event : pyval) :
  same_wiring (client (_handle_event event self)) self
  ∧ (∀ p, p ∈ sent (trace (_handle_event event self)) →
       p = PDict [("op", PInt 1); ("d", last_sequence self)]).
Proof.
  destruct (handle_event_wiring self event) as [Hwiring Hframes].
  split; [exact Hwiring | exact Hframes].
Qed.

End SessionFrames.

(** ** The session: the receive loop, the connect loop and shutdown *)

Section SessionLoops.

Import Gateway.

Ltac step :=
  unfold mbind, mret, M_bind, M_ret, get_self, assign, emit, raise, lift, try;
  cbn.

(** One iteration of [_event_loop]. *)
Lemma event_loop_cons (incoming : ws_item) (later : list ws_item)
    (self : GatewayClient) :
  _event_loop (incoming :: later) self
  = if running self then
      match (event ← _receive_event incoming; _handle_event event) self with
      | (Ret _, self1, done1) | (Raise (Exception _), self1, done1) =>
          match _event_loop later self1 with
          | (r, self2, done2) => (r, self2, done1 ++ done2)
          end
      | (Raise _, self1, done1) => (Ret Broke, self1, done1 ++ [])
      end
    else (Ret Stopped, self, []).
Proof.
  cbn [_event_loop]. step. destruct (running self); [|done].
  cbn. destruct (_receive_event incoming self) as [[[event|e] self1] done1];
    cbn.
  - destruct (_handle_event event self1) as [[[[]|e] self2] done2]; cbn.
    + by destruct (_event_loop later self2) as [[r self3] done3].
    + destruct e; cbn; try done.
      by destruct (_event_loop later self2) as [[r self3] done3].
  - destruct e; cbn; try done.
    by destruct (_event_loop later self1) as [[r self3] done3].
Qed.

Lemma receive_event_connected (incoming : ws_item) (self : GatewayClient) :
  websocket self ≠ None →
  _receive_event incoming self
  = (match incoming with
     | Recv v => Ret v
     | RecvNotJson => Raise (Exception "JSONDecodeError")
     | RecvClosed => Raise ConnectionClosed
     | RecvError => Raise WebSocketException
     end, self, []).
Proof.
  intros Hws. unfold _receive_event. step.
  destruct (websocket self); [|done]. by destruct incoming.
Qed.

(** X12. With the session running and the socket set, a message that is
    not JSON, or whose JSON is not an object, is skipped: the receive loop
    goes on to the next message with the client unchanged and nothing
    sent; it does not close the connection. *)
Theorem event_loop_skips_undecodable (incoming : ws_item)
    (later : list ws_item) (self : GatewayClient)
    (Hrun : running self = true) (Hws : websocket self ≠ None)
    (Hbad : incoming = RecvNotJson
            ∨ ∃ v, incoming = Recv v ∧ is_dict v = false) :
  _event_loop (incoming :: later) self = _event_loop later self.
Proof.
  rewrite event_loop_cons, Hrun. step.
  rewrite receive_event_connected by done.
  destruct Hbad as [-> | (v & -> & Hv)]; cbn.
  - by destruct (_event_loop later self) as [[r self2] done2].
  - unfold _handle_event. step. destruct v; try discriminate Hv; cbn;
      by destruct (_event_loop later self) as [[r self2] done2].
Qed.

Lemma event_loop_skips_undecodable_witness :
  _event_loop [RecvNotJson; Recv (PList [PInt 1]); Recv heartbeat_request]
    running_client
  = _event_loop [Recv heartbeat_request] running_client.
Proof.
  rewrite (event_loop_skips_undecodable RecvNotJson
             [Recv (PList [PInt 1]); Recv heartbeat_request] running_client).
  - apply (event_loop_skips_undecodable (Recv (PList [PInt 1]))
             [Recv heartbeat_request] running_client).
    + reflexivity.
    + discriminate.
    + right. exists (PList [PInt 1]). split; reflexivity.
  - reflexivity.
  - discriminate.
  - by left.
Defined.

(** X13. With the session running and the socket set, the receive loop
    ends at a closed connection, a socket error or a RECONNECT frame
    (op 7): it reads none of the messages after it, sends nothing, and
    leaves the whole client, [session_id] and [last_sequence] included,
    as it was, so that the next connection can resume. *)
Theorem event_loop_ends_at_close (incoming : ws_item) (later : list ws_item)
    (self : GatewayClient)
    (Hrun : running self = true) (Hws : websocket self ≠ None)
    (Hend : incoming = RecvClosed ∨ incoming = RecvError
            ∨ ∃ v, incoming = Recv v ∧ get v "op" PNone = Ret (PInt 7)) :
  _event_loop (incoming :: later) self = (Ret Broke, self, []).
Proof.
  rewrite event_loop_cons, Hrun. step.
  rewrite receive_event_connected by done.
  destruct Hend as [-> | [-> | (v & -> & Hv)]]; cbn; try done.
  unfold _handle_event. step. by rewrite Hv.
Qed.

Lemma event_loop_ends_at_close_witness :
  _event_loop [Recv (PDict [("op", PInt 7)]); Recv heartbeat_request]
    running_client
  = (Ret Broke, running_client, []).
Proof.
  apply (event_loop_ends_at_close (Recv (PDict [("op", PInt 7)]))
           [Recv heartbeat_request] running_client).
  - reflexivity.
  - discriminate.
  - right. right. exists (PDict [("op", PInt 7)]). split; reflexivity.
Defined.

(** Receiving and handling one message leaves the socket as it was. *)
Lemma event_step_keeps_socket (incoming : ws_item) (self : GatewayClient) :
  websocket (client ((event ← _receive_event incoming;
                      _handle_event event) self))
  = websocket self.
Proof.
  unfold client, _receive_event. step.
  destruct (websocket self) eqn:Hws; cbn; [|done].
  destruct incoming as [v| | |]; cbn; try done.
  pose proof (handle_event_wiring self v) as [(_ & Hsame & _) _].
  unfold client in Hsame.
  destruct (_handle_event v self) as [[r s] d]. cbn in *. congruence.
Qed.

(** X14. No exception escapes the receive loop: entered with the socket
    set, as [_connect_and_run] enters it, and whatever arrives,
    [_event_loop] returns, having ended by a break, by the [running]
    flag, or waiting for the next message. *)
Theorem event_loop_never_raises (inbox : list ws_item) (self : GatewayClient)
    (Hws : websocket self ≠ None) :
  ∃ how : loop_exit, result (_event_loop inbox self) = Ret how.
Proof.
  revert self Hws. induction inbox as [|incoming later IH]; intros self Hws.
  - unfold result. cbn [_event_loop]. step.
    destruct (running self); eauto.
  - rewrite event_loop_cons. destruct (running self); [|by exists Stopped].
    pose proof (event_step_keeps_socket incoming self) as Hkeep.
    destruct ((event ← _receive_event incoming; _handle_event event) self)
      as [[[[]|e] self1] done1]; unfold client in Hkeep; cbn in Hkeep.
    + destruct (IH self1 ltac:(congruence)) as [how Hhow]. exists how.
      unfold result in *. by destruct (_event_loop later self1) as [[r s] d].
    + destruct e; try by exists Broke.
      destruct (IH self1 ltac:(congruence)) as [how Hhow]. exists how.
      unfold result in *. by destruct (_event_loop later self1) as [[r s] d].
Qed.

Lemma event_loop_never_raises_witness :
  ∃ how : loop_exit,
    result (_event_loop
              [RecvNotJson;
               Recv (PList [PInt 1]);
               Recv (PDict [("op", PInt 0); ("s", PInt 11);
                            ("t", PStr "READY"); ("d", PInt 5)]);
               Recv (dispatch 12 "MESSAGE_CREATE");
               RecvClosed;
               Recv heartbeat_request]
              running_client)
    = Ret how.
Proof.
  apply (event_loop_never_raises
           [RecvNotJson;
            Recv (PList [PInt 1]);
            Recv (PDict [("op", PInt 0); ("s", PInt 11);
                         ("t", PStr "READY"); ("d", PInt 5)]);
            Recv (dispatch 12 "MESSAGE_CREATE");
            RecvClosed;
            Recv heartbeat_request]
           running_client).
  discriminate.
Defined.

(** The receive loop leaves the wiring of the client alone. *)
Lemma event_loop_keeps_running (inbox : list ws_item) :
  ∀ self : GatewayClient,
    running (client (_event_loop inbox self)) = running self.
Proof.
  induction inbox as [|incoming later IH]; intros self.
  - unfold client. cbn [_event_loop]. step.
    destruct (running self) eqn:Hrun; cbn; congruence.
  - rewrite event_loop_cons. destruct (running self) eqn:Hrun; [|done].
    assert (running (client ((event ← _receive_event incoming;
                              _handle_event event) self)) = true) as Hstep.
    { unfold client, _receive_event. step.
      destruct (websocket self); cbn; [|done].
      destruct incoming as [v| | |]; cbn; try done.
      pose proof (handle_event_wiring self v) as [(_ & _ & _ & _ & Hr & _) _].
      unfold client in Hr.
      destruct (_handle_event v self) as [[r s] d]. cbn in *. congruence. }
    destruct ((event ← _receive_event incoming; _handle_event event) self)
      as [[r self1] done1]. cbn in Hstep.
    specialize (IH self1). unfold client in *.
    destruct r as [[]|[| |what]];
      try (destruct (_event_loop later self1) as [[r2 s2] d2]; cbn in *;
           congruence);
      done.
Qed.

End SessionLoops.

Section SessionConnections.

Import Gateway.

Ltac step :=
  unfold mbind, mret, M_bind, M_ret, get_self, assign, emit, raise, lift, try;
  cbn.

Lemma authenticate_connected (platform : string) (self : GatewayClient) :
  websocket self ≠ None →
  authenticate platform self
  = (Ret tt, self, [Send (authentication_frame platform self)]).
Proof.
  intros Hws. unfold authenticate, authentication_frame. step.
  destruct (truthy (session_id self) && negb (is_none (last_sequence self))).
  - unfold _resume. step. by rewrite send_payload_connected.
  - unfold _identify. step. by rewrite send_payload_connected.
Qed.

(** X15. A connection that opens with a well-formed HELLO: the session
    connects to [resume_gateway_url] when it has one (the default URL
    otherwise), stores the heartbeat interval, creates the heartbeat task,
    then sends exactly one authentication frame, RESUME or IDENTIFY by the
    state it had before the connection, and only then handles the frames
    that follow, in the receive loop. *)
Theorem connect_and_run_handshake (platform : string) (self : GatewayClient)
    (first op d interval : pyval) (ms : Z) (later : list ws_item)
    (Hop : subscript first "op" = Ret op)
    (Hhello : eq_int op 10 = true)
    (Hd : subscript first "d" = Ret d)
    (Hinterval : subscript d "heartbeat_interval" = Ret interval)
    (Hms : milliseconds interval = Ret ms) :
  _connect_and_run platform (Recv first :: later) self
  = match _event_loop later (after_hello self ms) with
    | (how, self', done) =>
        (how, self',
         Connect (chosen_url self) :: CreateHeartbeatTask
         :: Send (authentication_frame platform self) :: done)
    end.
Proof.
  unfold _connect_and_run, _receive_event. step. fold (chosen_url self).
  rewrite Hop. cbn. rewrite Hhello. cbn. rewrite Hd. cbn.
  rewrite Hinterval. cbn. rewrite Hms. cbn.
  fold (after_hello self ms).
  rewrite (authenticate_connected platform (after_hello self ms)) by done.
  cbn. change (authentication_frame platform (after_hello self ms))
    with (authentication_frame platform self).
  by destruct (_event_loop later (after_hello self ms)) as [[how self'] done].
Qed.

Lemma connect_and_run_handshake_witness :
  trace (_connect_and_run "linux" [Recv hello; Recv heartbeat_request]
           (set_resume_gateway_url (PStr "wss://resume.example")
              (on_event (λ _ _, Ret tt) running_client)))
  = [Connect (PStr "wss://resume.example"); CreateHeartbeatTask;
     Send (resume_frame example_discord (PStr "s1") (PInt 10));
     Send (heartbeat_frame (PInt 10))].
Proof.
  rewrite (connect_and_run_handshake "linux"
             (set_resume_gateway_url (PStr "wss://resume.example")
                (on_event (λ _ _, Ret tt) running_client))
             hello (PInt 10) (PDict [("heartbeat_interval", PInt 41250)])
             (PInt 41250) 41250 [Recv heartbeat_request]); reflexivity.
Defined.

(** X16. A HELLO frame without a usable interval (no [d], a [d] without
    [heartbeat_interval], or an interval that is not a number) makes
    [_connect_and_run] raise: the socket has been opened, but no heartbeat
    task is created, no frame is sent, and the stored interval and the
    session fields are as before. *)
Theorem connect_and_run_malformed_hello (platform : string)
    (self : GatewayClient) (first op : pyval) (later : list ws_item)
    (Hop : subscript first "op" = Ret op)
    (Hhello : eq_int op 10 = true)
    (Hbad : (∃ e, subscript first "d" = Raise e)
            ∨ (∃ d e, subscript first "d" = Ret d
                      ∧ subscript d "heartbeat_interval" = Raise e)
            ∨ (∃ d interval e, subscript first "d" = Ret d
                      ∧ subscript d "heartbeat_interval" = Ret interval
                      ∧ milliseconds interval = Raise e)) :
  ∃ e, _connect_and_run platform (Recv first :: later) self
       = (Raise e,
          set_websocket (Some (WebSocketTo (chosen_url self))) self,
          [Connect (chosen_url self)]).
Proof.
  unfold _connect_and_run, _receive_event. step. fold (chosen_url self).
  rewrite Hop. cbn. rewrite Hhello. cbn.
  destruct Hbad as [(e & Hd) | [(d & e & Hd & Hi) | (d & i & e & Hd & Hi & Hm)]];
    rewrite Hd; cbn; [by exists e| |]; rewrite Hi; cbn; [by exists e|].
  rewrite Hm. cbn. by exists e.
Qed.

Lemma connect_and_run_malformed_hello_witness :
  ∃ e, _connect_and_run "linux" [Recv (PDict [("op", PInt 10)])]
         (GatewayClient_init example_discord)
       = (Raise e,
          set_websocket (Some (WebSocketTo (PStr GATEWAY_URL)))
            (GatewayClient_init example_discord),
          [Connect (PStr GATEWAY_URL)]).
Proof.
  apply (connect_and_run_malformed_hello "linux"
           (GatewayClient_init example_discord) (PDict [("op", PInt 10)])
           (PInt 10) []).
  - reflexivity.
  - reflexivity.
  - left. by exists (Exception "KeyError").
Defined.

(** One iteration of the loop of [connect]. *)
Lemma connect_loop_cons (platform : string) (c : connection)
    (later : list connection) (self : GatewayClient) :
  connect_loop platform (c :: later) self
  = if running self then
      match match c with
            | Refused =>
                (Raise (Exception "connection refused"), self,
                 [Connect (chosen_url self)])
            | Opened inbox => _connect_and_run platform inbox self
            end with
      | (Ret Awaiting, self1, done1) => (Ret Awaiting, self1, done1 ++ [])
      | (Ret _, self1, done1) =>
          match connect_loop platform later self1 with
          | (r, self2, done2) => (r, self2, done1 ++ done2)
          end
      | (Raise _, self1, done1) =>
          match connect_loop platform later self1 with
          | (r, self2, done2) =>
              (r, self2,
               done1 ++ (if running self1 then [Sleep (Seconds 5)] else [])
               ++ done2)
          end
      end
    else (Ret Stopped, self, []).
Proof.
  cbn [connect_loop]. step. destruct (running self); [|done].
  destruct c as [|inbox]; cbn.
  - fold (chosen_url self). destruct (running self); cbn;
      by destruct (connect_loop platform later self) as [[r self2] done2].
  - destruct (_connect_and_run platform inbox self) as [[[how|e] self1] done1];
      cbn.
    + destruct how; cbn; try done;
        by destruct (connect_loop platform later self1) as [[r self2] done2].
    + destruct (running self1); cbn;
        by destruct (connect_loop platform later self1) as [[r self2] done2].
Qed.

(** X17. After a connection that ended by a break (closed by the peer, a
    socket error, a RECONNECT frame), [connect] opens the next connection
    at once; after one that was refused or ended in an exception, it
    sleeps five seconds first, if [running] is still up. *)
Theorem connect_loop_pause (platform : string) (inbox : list ws_item)
    (later : list connection) (self self1 : GatewayClient)
    (done1 : list effect) (outcome : res loop_exit)
    (Hrun : running self = true)
    (Hended : _connect_and_run platform inbox self = (outcome, self1, done1))
    (Hnot_waiting : outcome ≠ Ret Awaiting) :
  trace (connect_loop platform (Opened inbox :: later) self)
  = done1
    ++ match outcome with
       | Ret _ => []
       | Raise _ => if running self1 then [Sleep (Seconds 5)] else []
       end
    ++ trace (connect_loop platform later self1).
Proof.
  rewrite connect_loop_cons, Hrun, Hended. unfold trace.
  destruct outcome as [[]|e]; try done;
    by destruct (connect_loop platform later self1) as [[r self2] done2].
Qed.

Lemma connect_loop_pause_witness :
  trace (connect_loop "linux" [Opened [Recv hello; RecvClosed]; Opened []]
           (set_running true (GatewayClient_init example_discord)))
  = [Connect (PStr GATEWAY_URL); CreateHeartbeatTask;
     Send (identify_frame "linux" example_discord)]
    ++ [] ++ [Connect (PStr GATEWAY_URL)].
Proof.
  apply (connect_loop_pause "linux" [Recv hello; RecvClosed] [Opened []]
           (set_running true (GatewayClient_init example_discord))
           (after_hello (set_running true (GatewayClient_init example_discord))
              41250)
           [Connect (PStr GATEWAY_URL); CreateHeartbeatTask;
            Send (identify_frame "linux" example_discord)]
           (Ret Broke)).
  - reflexivity.
  - reflexivity.
  - discriminate.
Defined.

(** X18. No exception escapes [connect], and it does not end by a break:
    whatever the connections do, it returns only waiting on an open
    connection (or for the next one), or because [running] went down. *)
Theorem connect_never_raises (platform : string)
    (connections : list connection) (self : GatewayClient) :
  result (connect platform connections self) = Ret Awaiting
  ∨ result (connect platform connections self) = Ret Stopped.
Proof.
  assert (∀ cs s, result (connect_loop platform cs s) = Ret Awaiting
                  ∨ result (connect_loop platform cs s) = Ret Stopped) as H.
  { induction cs as [|c later IH]; intros s.
    - unfold result. cbn [connect_loop]. step. destruct (running s); auto.
    - rewrite connect_loop_cons. destruct (running s); [|by right].
      destruct (match c with
                | Refused => _
                | Opened inbox => _
                end) as [[[how|e] self1] done1].
      + destruct how; try (by left);
          specialize (IH self1); unfold result in *;
          by destruct (connect_loop platform later self1) as [[r s2] d2].
      + specialize (IH self1). unfold result in *.
        by destruct (connect_loop platform later self1) as [[r s2] d2]. }
  unfold connect. step.
  specialize (H connections (set_running true self)). unfold result in *.
  by destruct (connect_loop platform connections (set_running true self))
    as [[r s2] d2].
Qed.

(** X19. [disconnect] lowers [running], cancels the heartbeat task when
    there is one and closes the socket when there is one, and leaves
    [session_id], [resume_gateway_url] and [last_sequence] alone. On the
    client it leaves, the receive loop reads no message, the loop of
    [connect] opens no connection, and a pass of the heartbeat loop sends
    nothing. *)
Theorem disconnect_stops_loops (platform : string) (self : GatewayClient)
    (inbox : list ws_item) (connections : list connection) :
  let stopped := (disconnect self).1 in
  running stopped = false
  ∧ session_id stopped = session_id self
  ∧ resume_gateway_url stopped = resume_gateway_url self
  ∧ last_sequence stopped = last_sequence self
  ∧ (CancelHeartbeatTask ∈ (disconnect self).2 ↔ heartbeat_task self = true)
  ∧ (CloseWebSocket ∈ (disconnect self).2 ↔ websocket self ≠ None)
  ∧ _event_loop inbox stopped = (Ret Stopped, stopped, [])
  ∧ connect_loop platform connections stopped = (Ret Stopped, stopped, [])
  ∧ heartbeat_pass stopped = (Ret false, stopped, []).
Proof.
  intros stopped. subst stopped. unfold disconnect. cbn [fst snd].
  repeat split; try done.
  - rewrite elem_of_app. intros [Hin | Hin].
    + by destruct (heartbeat_task self); [|apply elem_of_nil in Hin].
    + destruct (websocket self); [|by apply elem_of_nil in Hin].
      by apply list_elem_of_singleton in Hin.
  - intros ->. rewrite elem_of_app. left. apply list_elem_of_here.
  - rewrite elem_of_app. intros [Hin | Hin].
    + destruct (heartbeat_task self); [|by apply elem_of_nil in Hin].
      by apply list_elem_of_singleton in Hin.
    + by destruct (websocket self); [|apply elem_of_nil in Hin].
  - intros Hws. rewrite elem_of_app. right.
    destruct (websocket self); [apply list_elem_of_here | done].
  - by destruct inbox.
  - by destruct connections.
Qed.

(** X20. The heartbeat loop stops for good: once a pass meets a client
    whose [running] flag is down or that has no socket, it sends no frame
    at that pass or at any later one. *)
Theorem heartbeat_loop_stops_for_good (at_start : GatewayClient)
    (snapshots : list GatewayClient) (i : nat) (c : GatewayClient)
    (Hpass : snapshots !! i = Some c)
    (Hdown : running c = false ∨ websocket c = None) :
  (length (sent (_heartbeat_loop at_start snapshots)) <= i)%nat.
Proof.
  assert ((length (sent (heartbeat_passes snapshots)) <= i)%nat) as H.
  { revert i Hpass. induction snapshots as [|s later IH]; intros i Hpass.
    - discriminate.
    - cbn [heartbeat_passes]. destruct i as [|i].
      + injection Hpass as ->.
        assert (heartbeat_pass c = (Ret false, c, [])) as ->; [|done].
        unfold heartbeat_pass, _send_payload. step.
        destruct (running c); [|done].
        destruct Hdown as [? | ->]; done.
      + specialize (IH i Hpass).
        destruct (heartbeat_pass_cases s) as [[ms ->] | [-> | ->]]; cbn.
        * cbn in IH. lia.
        * lia.
        * lia. }
  unfold _heartbeat_loop. destruct (heartbeat_interval at_start); [done|].
  cbn. lia.
Qed.

Lemma heartbeat_loop_stops_for_good_witness :
  (length (sent (_heartbeat_loop running_client
                   [running_client; set_running false running_client;
                    running_client])) <= 1)%nat.
Proof.
  apply (heartbeat_loop_stops_for_good running_client
           [running_client; set_running false running_client; running_client]
           1 (set_running false running_client)).
  - reflexivity.
  - by left.
Defined.

End SessionConnections.

(** ** Loading the configuration from the environment *)

Section FromEnvironment.

Variable environ : string → option string.
Variable int : string → res Z.

Lemma validate_token_Ret (v w : string) :
  validate_token v = Ret w ↔ w = v ∧ 10 <= Z.of_nat (String.length v).
Proof.
  unfold validate_token. destruct (String.eqb v "") eqn:He.
  - apply String.eqb_eq in He. subst v. cbn. split; [done|]. intros [_ H].
    cbn in H. lia.
  - cbn. destruct (Z.of_nat (String.length v) <? 10) eqn:Hl.
    + apply Z.ltb_lt in Hl. split; [done|]. intros [_ H]. lia.
    + apply Z.ltb_ge in Hl. split; [by intros [= ->] | by intros [-> _]].
Qed.

(** X21. [from_env] returns a configuration exactly when [DISCORD_TOKEN]
    is set to a token of at least 10 characters and [int] reads each of
    [DISCORD_INTENTS], [HTTP_TIMEOUT], [HTTP_RETRY_ATTEMPTS] and
    [HTTP_RETRY_DELAY], or its default when the variable is not set. The
    configuration then holds that token and those four numbers, the log
    level and format from [LOG_LEVEL] and [LOG_FORMAT] or their defaults,
    and no route. *)
Theorem from_env_returns_iff (cfg : BridgeConfig) (log : LoggingConfig) :
  from_env environ int = Ret (cfg, log)
  ↔ ∃ tok, environ "DISCORD_TOKEN" = Some tok
           ∧ 10 <= Z.of_nat (String.length tok)
           ∧ int (getenv environ "DISCORD_INTENTS" "513")
             = Ret (intents (discord cfg))
           ∧ int (getenv environ "HTTP_TIMEOUT" "30") = Ret (timeout (http cfg))
           ∧ int (getenv environ "HTTP_RETRY_ATTEMPTS" "3")
             = Ret (retry_attempts (http cfg))
           ∧ int (getenv environ "HTTP_RETRY_DELAY" "1")
             = Ret (retry_delay (http cfg))
           ∧ token (discord cfg) = tok
           ∧ routes cfg = []
           ∧ log = {| level := getenv environ "LOG_LEVEL" "INFO";
                      format := getenv environ "LOG_FORMAT" "json" |}.
Proof.
  unfold from_env, DiscordConfig_init.
  destruct (environ "DISCORD_TOKEN") as [tok|];
    [|split; [done | by intros (? & ? & _)]].
  destruct (validate_token tok) as [v|e] eqn:Hv.
  - apply validate_token_Ret in Hv as [-> Hlen].
    assert (String.eqb tok "" = false) as ->.
    { apply String.eqb_neq. intros ->. cbn in Hlen. lia. }
    destruct (int (getenv environ "DISCORD_INTENTS" "513")) as [i|];
      [|split; [done | by intros (? & _ & _ & ? & _)]].
    destruct (int (getenv environ "HTTP_TIMEOUT" "30")) as [t|];
      [|split; [done | by intros (? & _ & _ & _ & ? & _)]].
    destruct (int (getenv environ "HTTP_RETRY_ATTEMPTS" "3")) as [a|];
      [|split; [done | by intros (? & _ & _ & _ & _ & ? & _)]].
    destruct (int (getenv environ "HTTP_RETRY_DELAY" "1")) as [dl|];
      [|split; [done | by intros (? & _ & _ & _ & _ & _ & ? & _)]].
    split.
    + intros [= <- <-]. exists tok. repeat split; done.
    + intros (tok' & [= <-] & _ & [= ->] & [= ->] & [= ->] & [= ->] & Htok
              & Hroutes & ->).
      destruct cfg as [[tk it] [tm ra rd] rs]. cbn in *. by subst.
  - assert (¬ 10 <= Z.of_nat (String.length tok)) as Hshort.
    { intros Hlen.
      assert (validate_token tok = Ret tok) as H
        by (by apply validate_token_Ret).
      congruence. }
    split.
    + destruct (String.eqb tok ""); [done|].
      by destruct (int (getenv environ "DISCORD_INTENTS" "513")).
    + intros (tok' & [= <-] & Hlen & _). done.
Qed.

(** X22. Without [DISCORD_TOKEN], or with an empty one, [from_env] raises
    its own [ValueError] before it looks at any other variable: what the
    other variables hold, and whether [int] could read them, makes no
    difference. *)
Theorem from_env_requires_token
    (Hmissing : environ "DISCORD_TOKEN" = None
                ∨ environ "DISCORD_TOKEN" = Some "") :
  from_env environ int
  = Raise (Exception "ValueError: DISCORD_TOKEN environment variable is required").
Proof. unfold from_env. by destruct Hmissing as [-> | ->]. Qed.

(** X23. A token that is set but shorter than 10 characters is refused by
    the validator of [DiscordConfig], once [DISCORD_INTENTS] has been read;
    when [int] cannot read [DISCORD_INTENTS], it is that error which
    [from_env] raises, the token not having been validated yet. *)
Theorem from_env_short_token (tok : string)
    (Htok : environ "DISCORD_TOKEN" = Some tok)
    (Hset : tok ≠ "")
    (Hshort : Z.of_nat (String.length tok) < 10) :
  from_env environ int
  = match int (getenv environ "DISCORD_INTENTS" "513") with
    | Ret _ =>
        Raise (Exception "ValueError: Discord token must be provided and valid")
    | Raise e => Raise e
    end.
Proof.
  unfold from_env, DiscordConfig_init, validate_token. rewrite Htok.
  rewrite (proj2 (String.eqb_neq _ _)) by done.
  destruct (int (getenv environ "DISCORD_INTENTS" "513")); [|done].
  cbn. by rewrite (proj2 (Z.ltb_lt _ _)) by done.
Qed.

End FromEnvironment.

Lemma from_env_returns_iff_witness :
  from_env example_environ decimal
  = Ret ({| discord := {| token := "test_token"; intents := 1024 |};
            http := HTTPConfig_default; routes := [] |},
         {| level := "DEBUG"; format := "json" |}).
Proof.
  apply (from_env_returns_iff example_environ decimal).
  exists "test_token". repeat split; try reflexivity; simpl; lia.
Defined.

Lemma from_env_requires_token_witness :
  from_env (λ name, if String.eqb name "DISCORD_INTENTS" then Some "many"
                    else None)
    decimal
  = Raise (Exception "ValueError: DISCORD_TOKEN environment variable is required").
Proof.
  apply (from_env_requires_token
           (λ name, if String.eqb name "DISCORD_INTENTS" then Some "many"
                    else None) decimal).
  by left.
Defined.

Lemma from_env_short_token_witness :
  from_env (λ name, if String.eqb name "DISCORD_TOKEN" then Some "short"
                    else None)
    decimal
  = Raise (Exception "ValueError: Discord token must be provided and valid").
Proof.
  rewrite (from_env_short_token
             (λ name, if String.eqb name "DISCORD_TOKEN" then Some "short"
                      else None) decimal "short").
  - reflexivity.
  - reflexivity.
  - discriminate.
  - simpl. lia.
Defined.

(** X24. A bridge configured from the environment forwards nothing: its
    configuration has no route, so every call of [handle_event] on a
    router that holds it only raises [events_received] by one, and hands
    no endpoint to a forward task. *)
Theorem from_env_router_forwards_nothing (environ : string → option string)
    (int : string → res Z) (cfg : BridgeConfig) (log : LoggingConfig)
    (forward : nat → string → string → pyval → res bool)
    (self : EventRouter) (event_type : string) (event_data : pyval)
    (Hloaded : from_env environ int = Ret (cfg, log))
    (Hconfig : Router.config self = cfg) :
  task_endpoints (get_routes_for_event cfg event_type) = []
  ∧ handle_event forward self event_type event_data
    = (Ret tt,
       set_stats self
         {| events_received := events_received (stats self) + 1;
            events_forwarded := events_forwarded (stats self);
            events_failed := events_failed (stats self);
            routes_processed := routes_processed (stats self) |}).
Proof.
  assert (routes cfg = []) as Hroutes.
  { unfold from_env, DiscordConfig_init in Hloaded.
    repeat match type of Hloaded with
           | match ?x with _ => _ end = _ => destruct x; try discriminate
           | (if ?x then _ else _) = _ => destruct x; try discriminate
           end.
    by injection Hloaded as <- _. }
  assert (get_routes_for_event cfg event_type = []) as Hnone.
  { unfold get_routes_for_event. by rewrite Hroutes. }
  split; [by rewrite Hnone|].
  rewrite handle_event_result, Hconfig, Hnone. done.
Qed.

Lemma from_env_router_forwards_nothing_witness :
  handle_event (λ _ _ _ _, Ret true)
    (EventRouter_start
       (EventRouter_init
          {| discord := {| token := "test_token"; intents := 1024 |};
             http := HTTPConfig_default; routes := [] |}))
    "MESSAGE_CREATE" (PDict [])
  = (Ret tt,
     set_stats
       (EventRouter_start
          (EventRouter_init
             {| discord := {| token := "test_token"; intents := 1024 |};
                http := HTTPConfig_default; routes := [] |}))
       {| events_received := 0 + 1; events_forwarded := 0;
          events_failed := 0; routes_processed := 0 |}).
Proof.
  apply (from_env_router_forwards_nothing example_environ decimal
           {| discord := {| token := "test_token"; intents := 1024 |};
              http := HTTPConfig_default; routes := [] |}
           {| level := "DEBUG"; format := "json" |}
           (λ _ _ _ _, Ret true)); reflexivity.
Defined.
